(** * A shallow embedding of the financial-derivation engine of [python.py]

    The script reads a three-column statement (label, prior value, current
    value) into a pandas [DataFrame], derives growth and weight columns in
    [process_financial_data], computes the current ratio and assembles the
    key-metrics table [data_for_ai].

    Modelling choices:
    - numbers are IEEE-754 binary64 values (Rocq's primitive floats), which is
      what a float64 column and a Python [float] hold. Every division of the
      script converts its operands to binary64, so [process_financial_data]
      below takes each number by its binary64 value. The one place where pandas
      computes on integers is the subtraction of line 27 when both value
      columns are int64: lines 22 and 26-28 are embedded a second time, with
      int64 and float64 columns, in the section on dtypes ([growth_column]),
      and the growth formula is settled there;
    - a Python [str] is its sequence of Unicode code points;
    - a [DataFrame] is the ordered list of its named columns, a [Series] the
      list of its cells, and a cell is a number or a text;
    - DataFrames are mutable objects: they live in a store and are passed by
      reference, so [df[col] = ...] is an update of the store;
    - exceptions are results ([Raise]), threaded through a state-and-error
      monad;
    - what pandas and CPython bring from outside the script (the text-to-number
      parser of [pd.to_numeric], the case tables behind [re.IGNORECASE] and
      [str.upper], the white-space table of [str.strip]) is the interface
      [Runtime]; every general theorem holds for all of its instances;
    - the Streamlit calls that only display ([st.metric], [st.dataframe], ...)
      and the result cache of [st.cache_data] are left out: the cache replays
      a result for an equal argument and runs the body otherwise.

    Library behaviour taken as given (it is not in the script, and the
    definitions below state it rather than derive it):
    - [pd.to_numeric(..., errors='coerce')] never raises and gives NaN for a
      text that is no number;
    - [Series.replace(0, 1e-9)] and the scalar test [x != 0] agree on which
      numbers are zero (both signed zeros);
    - the [.str] accessor raises [AttributeError] on a column that has rows
      and no text, and accepts an empty column and a column with some text;
    - dividing NumPy scalars or columns by zero gives infinity or NaN and
      raises nothing;
    - arithmetic between a number and a text raises [TypeError];
    - [pd.to_numeric] gives an int64 column when every cell is an integer
      and a float64 column otherwise; int64 minus int64 wraps around modulo
      2^64; an int64 is converted to binary64 by rounding to nearest, ties to
      even; [Series.replace(0, 1e-9)] on an int64 column with a zero gives a
      float64 column. *)

From Stdlib Require Import Floats.PrimFloat.
From stdpp Require Import gmap strings list.

Set Warnings "-inexact-float".
Set Default Proof Using "Type".

(* ===================================================================== *)
(** ** Python strings *)
(* ===================================================================== *)

(** A [str] is a sequence of code points. *)
Abbreviation py_str := (list N).

(** Literals are written as UTF-8 text and decoded once. *)
Fixpoint utf8_cont (n : nat) (acc : N) (bs : list N) : option (N * list N) :=
  match n with
  | O => Some (acc, bs)
  | S n' =>
      match bs with
      | b :: bs' =>
          if ((128 <=? b) && (b <? 192))%N
          then utf8_cont n' (acc * 64 + (b - 128))%N bs'
          else None
      | [] => None
      end
  end.

Fixpoint utf8_decode (fuel : nat) (bs : list N) : py_str :=
  match fuel with
  | O => []
  | S fuel' =>
      match bs with
      | [] => []
      | b :: bs' =>
          if (b <? 128)%N then b :: utf8_decode fuel' bs'
          else
            let lead :=
              if (b <? 224)%N then (1%nat, (b - 192)%N)
              else if (b <? 240)%N then (2%nat, (b - 224)%N)
              else (3%nat, (b - 240)%N) in
            match utf8_cont lead.1 lead.2 bs' with
            | Some (c, rest) => c :: utf8_decode fuel' rest
            | None => 65533%N :: utf8_decode fuel' bs'
            end
      end
  end.

Definition bytes_of (s : string) : list N :=
  Ascii.N_of_ascii <$> String.list_ascii_of_string s.

Definition py (s : string) : py_str :=
  utf8_decode (String.length s) (bytes_of s).

(** The label literals of the script (lines 32, 193-198 and 235). *)
Definition TONG_CONG_TAI_SAN : py_str := py "TỔNG CỘNG TÀI SẢN".
Definition TAI_SAN_NGAN_HAN : py_str := py "TÀI SẢN NGẮN HẠN".
Definition NO_NGAN_HAN : py_str := py "NỢ NGẮN HẠN".

(** The column names. *)
Definition Chi_tieu : string := "Chỉ tiêu".
Definition Nam_truoc : string := "Năm trước".
Definition Nam_sau : string := "Năm sau".
Definition Toc_do_tang_truong : string := "Tốc độ tăng trưởng (%)".
Definition Ty_trong_Nam_truoc : string := "Tỷ trọng Năm trước (%)".
Definition Ty_trong_Nam_sau : string := "Tỷ trọng Năm sau (%)".

(** [numeric_cols], line 20. *)
Definition numeric_cols : list string := [Nam_truoc; Nam_sau].

(* ===================================================================== *)
(** ** What the libraries supply *)
(* ===================================================================== *)

Class Runtime := {
  (** [pd.to_numeric] on one text cell; [None] when the text is no number
      (with [errors='coerce'] that cell becomes NaN). *)
  parse_number : py_str → option float;
  (** [re.IGNORECASE]: does pattern character [p] match text character [c]? *)
  ci_eq : N → N → bool;
  (** [str.upper], character by character (one character may become several). *)
  upper_char : N → py_str;
  (** the characters [str.strip] removes. *)
  is_space : N → bool
}.

(* ===================================================================== *)
(** ** Cells, Series, DataFrames *)
(* ===================================================================== *)

(** A cell of a column: a number (an empty cell is NaN) or a text. A number
    is taken by its binary64 value, to which every division converts it; the
    subtraction of line 27 on int64 columns is in the section on dtypes. *)
Inductive cell :=
  | Num (x : float)
  | Str (s : py_str).

Abbreviation Series := (list cell).

(** Columns in order, each with its name. *)
Abbreviation DataFrame := (list (string * Series)).

Inductive exn :=
  | ValueError (msg : string)
  | KeyError (key : string)
  | IndexError
  | TypeError
  | AttributeError
  | SystemError.

Inductive outcome (A : Type) :=
  | Ok (a : A)
  | Raise (e : exn).
Arguments Ok {A} a.
Arguments Raise {A} e.

#[export] Instance outcome_ret : MRet outcome := λ A a, Ok a.
#[export] Instance outcome_bind : MBind outcome :=
  λ A B f o, match o with Ok a => f a | Raise e => Raise e end.

(** The zero guard of lines 44-45: [x if x != 0 else 1e-9]. *)
Definition zero_guard (x : float) : float :=
  if negb (x =? 0)%float then x else 1e-9%float.

Section Pandas.
Context `{Runtime}.

(** [pd.to_numeric(s, errors='coerce')]. *)
Definition to_numeric (s : Series) : Series :=
  (λ c, match c with
        | Num x => Num x
        | Str t => match parse_number t with
                   | Some x => Num x
                   | None => Num nan
                   end
        end) <$> s.

(** [s.fillna(v)]. *)
Definition fillna (v : float) (s : Series) : Series :=
  (λ c, match c with
        | Num x => if is_nan x then Num v else Num x
        | Str t => Str t
        end) <$> s.

(** [s.replace(old, new)] for numbers [old] and [new]. *)
Definition replace (old new : float) (s : Series) : Series :=
  (λ c, match c with
        | Num x => if (x =? old)%float then Num new else Num x
        | Str t => Str t
        end) <$> s.

(** Arithmetic on two cells; a text operand is a [TypeError]. *)
Definition cell_op (op : float → float → float) (a b : cell) : outcome cell :=
  match a, b with
  | Num x, Num y => Ok (Num (op x y))
  | _, _ => Raise TypeError
  end.

(** [a op b] for two Series of one frame, row by row. *)
Fixpoint series_op (op : float → float → float) (a b : Series) : outcome Series :=
  match a, b with
  | x :: a', y :: b' =>
      z ← cell_op op x y; r ← series_op op a' b'; mret (z :: r)
  | _, _ => mret []
  end.

(** [a op k] for a Series and a scalar. *)
Fixpoint series_scalar_op (op : float → float → float) (a : Series) (k : cell)
  : outcome Series :=
  match a with
  | x :: a' =>
      z ← cell_op op x k; r ← series_scalar_op op a' k; mret (z :: r)
  | [] => mret []
  end.

(** [re.search(pat, txt, re.IGNORECASE)] for a pattern of plain characters:
    [match_here] tries one position, [re_search] every position from the
    left. *)
Fixpoint match_here (pat txt : py_str) : bool :=
  match pat, txt with
  | [], _ => true
  | p :: pat', c :: txt' => ci_eq p c && match_here pat' txt'
  | _ :: _, [] => false
  end.

Fixpoint re_search (pat txt : py_str) : bool :=
  match_here pat txt ||
  match txt with
  | [] => false
  | _ :: txt' => re_search pat txt'
  end.

(** One cell of [s.str.contains(pat, case=False, na=False)]: a cell that
    is no text gives NaN, which [na=False] turns into [False]. *)
Definition cell_contains (pat : py_str) (c : cell) : bool :=
  match c with
  | Str t => re_search pat t
  | Num _ => false
  end.

(** [s.str]: pandas refuses the accessor, with an [AttributeError], on a
    column that has rows and no text among them (such a column is read as
    a column of numbers). *)
Definition is_text (c : cell) : bool :=
  match c with
  | Str _ => true
  | Num _ => false
  end.

Definition str_accessor (s : Series) : outcome Series :=
  match s with
  | [] => Ok s
  | _ :: _ => if existsb is_text s then Ok s else Raise AttributeError
  end.

Definition str_contains (pat : py_str) (s : Series) : outcome (list bool) :=
  match str_accessor s with
  | Ok t => Ok (cell_contains pat <$> t)
  | Raise e => Raise e
  end.

(** [s.str.upper()] and [s.str.strip()]; a cell that is no text gives NaN. *)
Definition str_upper (s : Series) : outcome Series :=
  match str_accessor s with
  | Ok t => Ok ((λ c, match c with
                      | Str u => Str (u ≫= upper_char)
                      | Num _ => Num nan
                      end) <$> t)
  | Raise e => Raise e
  end.

Fixpoint lstrip (t : py_str) : py_str :=
  match t with
  | c :: t' => if is_space c then lstrip t' else t
  | [] => []
  end.

Definition strip (t : py_str) : py_str :=
  reverse (lstrip (reverse (lstrip t))).

Definition str_strip (s : Series) : outcome Series :=
  match str_accessor s with
  | Ok t => Ok ((λ c, match c with
                      | Str u => Str (strip u)
                      | Num _ => Num nan
                      end) <$> t)
  | Raise e => Raise e
  end.

(** [x in s.tolist()] for a [str] [x]. *)
Definition str_in (x : py_str) (s : Series) : bool :=
  existsb (λ c, match c with
                | Str t => bool_decide (t = x)
                | Num _ => false
                end) s.

(** [s.iloc[0]]. *)
Definition iloc0 (s : Series) : outcome cell :=
  match s with
  | c :: _ => Ok c
  | [] => Raise IndexError
  end.

(** [df[col]] on a frame value. *)
Fixpoint df_get (col : string) (df : DataFrame) : outcome Series :=
  match df with
  | [] => Raise (KeyError col)
  | (name, s) :: df' => if String.eqb name col then Ok s else df_get col df'
  end.

(** [df[col] = s]: an existing column is replaced where it stands, a new
    one is added last. *)
Fixpoint df_set (col : string) (s : Series) (df : DataFrame) : DataFrame :=
  match df with
  | [] => [(col, s)]
  | (name, s0) :: df' =>
      if String.eqb name col then (name, s) :: df'
      else (name, s0) :: df_set col s df'
  end.

(** The rows of [s] kept by a boolean mask. *)
Fixpoint mask_select (mask : list bool) (s : Series) : Series :=
  match mask, s with
  | b :: mask', c :: s' =>
      if b then c :: mask_select mask' s' else mask_select mask' s'
  | _, _ => []
  end.

(** [df[mask]]: a new frame with the selected rows. *)
Definition df_mask (mask : list bool) (df : DataFrame) : DataFrame :=
  (λ cs, (cs.1, mask_select mask cs.2)) <$> df.

(** [df.empty]: no row (or no column). *)
Definition df_empty (df : DataFrame) : bool :=
  match df with
  | [] => true
  | (_, s) :: _ => match s with [] => true | _ :: _ => false end
  end.

End Pandas.

(* ===================================================================== *)
(** ** The store of DataFrame objects and the monad of the script *)
(* ===================================================================== *)

Abbreviation loc := positive.
Abbreviation heap := (gmap positive DataFrame).

Definition M (A : Type) : Type := heap → outcome A * heap.

#[export] Instance M_ret : MRet M := λ A a h, (Ok a, h).
#[export] Instance M_bind : MBind M :=
  λ A B f m h,
    match m h with
    | (Ok a, h') => f a h'
    | (Raise e, h') => (Raise e, h')
    end.

Definition raise {A} (e : exn) : M A := λ h, (Raise e, h).

Definition lift {A} (o : outcome A) : M A := λ h, (o, h).

(** [try: body except IndexError: handler]. *)
Definition try_except_IndexError {A} (body handler : M A) : M A :=
  λ h,
    match body h with
    | (Raise IndexError, h') => handler h'
    | r => r
    end.

(** Reading the object behind a reference. *)
Definition load (df : loc) : M DataFrame :=
  λ h, match h !! df with
       | Some d => (Ok d, h)
       | None => (Raise SystemError, h)
       end.

Definition store (df : loc) (d : DataFrame) : M unit :=
  λ h, (Ok (), <[df := d]> h).

(** A new object, at a reference no live object has. *)
Definition alloc (d : DataFrame) : M loc :=
  λ h, let l := fresh (dom h) in (Ok l, <[l := d]> h).

(** [df.copy()]: a new object with the same content. *)
Definition copy (df : loc) : M loc :=
  d ← load df; alloc d.

Section Script.
Context `{Runtime}.

(** [df[col]] and [df[col] = s] through a reference. *)
Definition getitem (df : loc) (col : string) : M Series :=
  d ← load df; lift (df_get col d).

Definition setitem (df : loc) (col : string) (s : Series) : M unit :=
  d ← load df; store df (df_set col s d).

(** [for col in cols: df[col] = pd.to_numeric(df[col], errors='coerce').fillna(0)]
    (lines 21-22). *)
Fixpoint coerce_columns (df : loc) (cols : list string) : M unit :=
  match cols with
  | [] => mret ()
  | col :: cols' =>
      s ← getitem df col;
      _ ← setitem df col (fillna 0 (to_numeric s));
      coerce_columns df cols'
  end.

Definition missing_anchor_msg : string :=
  "Không tìm thấy chỉ tiêu 'TỔNG CỘNG TÀI SẢN'.".

(** Lines 16-52. *)
Definition process_financial_data (df : loc) : M loc :=
  _ ← coerce_columns df numeric_cols;
  (* lines 26-28 *)
  a ← getitem df Nam_sau;
  b ← getitem df Nam_truoc;
  diff ← lift (series_op sub a b);
  c ← getitem df Nam_truoc;
  quot ← lift (series_op div diff (replace 0 1e-9 c));
  growth ← lift (series_scalar_op mul quot (Num 100));
  _ ← setitem df Toc_do_tang_truong growth;
  (* line 32 *)
  labels ← getitem df Chi_tieu;
  mask ← lift (str_contains TONG_CONG_TAI_SAN labels);
  d ← load df;
  let tong_tai_san_row := df_mask mask d in
  (* lines 34-35 *)
  if df_empty tong_tai_san_row then raise (ValueError missing_anchor_msg)
  else
    (* lines 37-38 *)
    tong_tai_san_N_1 ← lift (df_get Nam_truoc tong_tai_san_row ≫= iloc0);
    tong_tai_san_N ← lift (df_get Nam_sau tong_tai_san_row ≫= iloc0);
    (* lines 44-45 *)
    divisor_N_1 ← lift (match tong_tai_san_N_1 with
                        | Num x => Ok (Num (zero_guard x))
                        | Str t => Ok (Str t)
                        end);
    divisor_N ← lift (match tong_tai_san_N with
                      | Num x => Ok (Num (zero_guard x))
                      | Str t => Ok (Str t)
                      end);
    (* lines 48-49 *)
    p ← getitem df Nam_truoc;
    wp ← lift (series_scalar_op div p divisor_N_1 ≫=
               λ q, series_scalar_op mul q (Num 100));
    _ ← setitem df Ty_trong_Nam_truoc wp;
    c ← getitem df Nam_sau;
    wc ← lift (series_scalar_op div c divisor_N ≫=
               λ q, series_scalar_op mul q (Num 100));
    _ ← setitem df Ty_trong_Nam_sau wc;
    mret df.

End Script.

(* ===================================================================== *)
(** ** The rest of the upload branch (lines 161-239) *)
(* ===================================================================== *)

(** The texts the script builds, kept symbolic where a library renders
    them. *)
Inductive text :=
  | to_markdown (d : DataFrame)   (* [d.to_markdown(index=False)] *)
  | fmt_2f_pct (x : float)        (* [f"{x:.2f}%"] *)
  | repr (x : float)              (* [f"{x}"] for a number *)
  | lit (s : py_str).             (* a [str] as it is *)

Definition NA : py_str := py "N/A".

(** What the upload branch leaves behind. *)
Record report := {
  df_processed : loc;
  thanh_toan_hien_hanh_N : cell;
  thanh_toan_hien_hanh_N_1 : cell;
  data_for_ai : list (py_str * text)
}.

Section Upload.
Context `{Runtime}.

(** [df[df['Chỉ tiêu'].str.contains(pat, case=False, na=False)][col].iloc[0]],
    the expression of lines 193-198 and 235. *)
Definition first_match (df : loc) (pat : py_str) (col : string) : M cell :=
  labels ← getitem df Chi_tieu;
  mask ← lift (str_contains pat labels);
  d ← load df;
  lift (df_get col (df_mask mask d) ≫= iloc0).

(** Lines 189-220: the current ratio of both periods, as the pair
    (year N, year N-1). *)
Definition thanh_toan_hien_hanh (df : loc) : M (cell * cell) :=
  try_except_IndexError
    (tsnh_n ← first_match df TAI_SAN_NGAN_HAN Nam_sau;
     tsnh_n_1 ← first_match df TAI_SAN_NGAN_HAN Nam_truoc;
     no_ngan_han_N ← first_match df NO_NGAN_HAN Nam_sau;
     no_ngan_han_N_1 ← first_match df NO_NGAN_HAN Nam_truoc;
     ratio_N ← lift (cell_op div tsnh_n no_ngan_han_N);
     ratio_N_1 ← lift (cell_op div tsnh_n_1 no_ngan_han_N_1);
     mret (ratio_N, ratio_N_1))
    (mret (Str NA, Str NA)).

(** [f"{c}"]. *)
Definition format_plain (c : cell) : text :=
  match c with
  | Num x => repr x
  | Str t => lit t
  end.

(** [f"{c:.2f}%"]; the format code [f] on a [str] is a [ValueError]. *)
Definition format_2f_pct (c : cell) : outcome text :=
  match c with
  | Num x => Ok (fmt_2f_pct x)
  | Str _ => Raise (ValueError "Unknown format code 'f' for object of type 'str'")
  end.

(** Line 235: the short-term-assets growth entry. *)
Definition tsnh_growth_entry (df : loc) : M text :=
  labels ← getitem df Chi_tieu;
  keys ← lift (str_upper labels ≫= str_strip);
  if str_in TAI_SAN_NGAN_HAN keys
  then g ← first_match df TAI_SAN_NGAN_HAN Toc_do_tang_truong;
       lift (format_2f_pct g)
  else mret (lit NA).

(** Lines 226-239: the two columns of the key-metrics table, row by row. *)
Definition build_data_for_ai (df : loc) (ratio_N ratio_N_1 : cell)
  : M (list (py_str * text)) :=
  d ← load df;
  g ← tsnh_growth_entry df;
  mret [ (py "Toàn bộ Bảng phân tích (dữ liệu thô)", to_markdown d);
         (py "Tăng trưởng Tài sản ngắn hạn (%)", g);
         (py "Thanh toán hiện hành (N-1)", format_plain ratio_N_1);
         (py "Thanh toán hiện hành (N)", format_plain ratio_N) ].

(** Line 169: [process_financial_data(df_raw.copy())]. *)
Definition derive (df_raw : loc) : M loc :=
  df ← copy df_raw; process_financial_data df.

(** Lines 169-220: the derivation, then the current ratio. *)
Definition upload_metrics (df_raw : loc) : M (loc * (cell * cell)) :=
  df ← derive df_raw;
  ratios ← thanh_toan_hien_hanh df;
  mret (df, ratios).

(** Lines 169-239, from the renamed [df_raw] to the key-metrics table. *)
Definition on_upload (df_raw : loc) : M report :=
  m ← upload_metrics df_raw;
  table ← build_data_for_ai m.1 m.2.1 m.2.2;
  mret {| df_processed := m.1;
          thanh_toan_hien_hanh_N := m.2.1;
          thanh_toan_hien_hanh_N_1 := m.2.2;
          data_for_ai := table |}.

End Upload.

(* ===================================================================== *)
(** ** Statements as rows *)
(* ===================================================================== *)

(** A line item as the reader delivers it: label, prior value, current
    value, each an arbitrary cell. *)
Record line_item := {
  label : cell;
  prior_value : cell;
  current_value : cell
}.

(** [df_raw] after line 166: the three columns under their names. *)
Definition frame_of (rows : list line_item) : DataFrame :=
  [ (Chi_tieu, label <$> rows);
    (Nam_truoc, prior_value <$> rows);
    (Nam_sau, current_value <$> rows) ].

(** The column [col] of a frame, empty when there is none. *)
Definition column (col : string) (d : DataFrame) : Series :=
  match df_get col d with
  | Ok s => s
  | Raise _ => []
  end.

(** What a caller sees of a run that returns a reference: the frame behind
    it, or the exception. *)
Definition observe (r : outcome loc * heap) : outcome (option DataFrame) :=
  match r.1 with
  | Ok l => Ok (r.2 !! l)
  | Raise e => Raise e
  end.

(* ===================================================================== *)
(** ** The derivation, row by row *)
(* ===================================================================== *)

(** The formulas of the derivation written per line item; the theorems
    below relate the column program to them. *)
Section Rowwise.
Context `{Runtime}.

(** Step 1: a cell as a number, 0 when it is none. *)
Definition normalized (c : cell) : float :=
  match c with
  | Num x => if is_nan x then 0%float else x
  | Str t =>
      match parse_number t with
      | Some x => if is_nan x then 0%float else x
      | None => 0%float
      end
  end.

Definition prior (r : line_item) : float := normalized (prior_value r).
Definition current (r : line_item) : float := normalized (current_value r).

(** Step 2. *)
Definition growth_pct (r : line_item) : float :=
  ((current r - prior r) / zero_guard (prior r) * 100)%float.

(** Step 4, for a value [x] and an anchor value [a]. *)
Definition weight_pct (x a : float) : float :=
  (x / zero_guard a * 100)%float.

(** Does the label of [r] contain [pat], whatever the case? *)
Definition matches (pat : py_str) (r : line_item) : bool :=
  cell_contains pat (label r).

(** Is the label column a text column: no row at all, or text in some
    label? *)
Definition has_text_labels (rows : list line_item) : bool :=
  match rows with
  | [] => true
  | _ :: _ => existsb (λ r, is_text (label r)) rows
  end.

(** The first line item whose label contains [pat]. *)
Definition first_row (pat : py_str) (rows : list line_item) : option line_item :=
  List.find (matches pat) rows.

(** What line 32 or line 35 raises when no label contains the
    total-assets text. *)
Definition no_anchor_exn (rows : list line_item) : exn :=
  if has_text_labels rows then ValueError missing_anchor_msg
  else AttributeError.

(** The frame after lines 21-22, after line 28 and after line 49. *)
Definition coerced (rows : list line_item) : DataFrame :=
  [ (Chi_tieu, label <$> rows);
    (Nam_truoc, (λ r, Num (prior r)) <$> rows);
    (Nam_sau, (λ r, Num (current r)) <$> rows) ].

Definition with_growth (rows : list line_item) : DataFrame :=
  coerced rows ++ [ (Toc_do_tang_truong, (λ r, Num (growth_pct r)) <$> rows) ].

Definition enriched (rows : list line_item) (a : line_item) : DataFrame :=
  with_growth rows ++
  [ (Ty_trong_Nam_truoc, (λ r, Num (weight_pct (prior r) (prior a))) <$> rows);
    (Ty_trong_Nam_sau, (λ r, Num (weight_pct (current r) (current a))) <$> rows) ].

End Rowwise.

(* ===================================================================== *)
(** ** A runtime for the examples *)
(* ===================================================================== *)

(** Case pairs of Basic Latin, Latin-1 and the Vietnamese alphabet. *)
Definition viet_lower (c : N) : N :=
  if ((65 <=? c) && (c <=? 90))%N then (c + 32)%N
  else if ((192 <=? c) && (c <=? 222) && negb (c =? 215))%N then (c + 32)%N
  else if ((c =? 0x102) || (c =? 0x110) || (c =? 0x128) || (c =? 0x168)
           || (c =? 0x1A0) || (c =? 0x1AF))%N then (c + 1)%N
  else if ((0x1EA0 <=? c) && (c <=? 0x1EF9) && N.even c)%N then (c + 1)%N
  else if (c =? 0x130)%N then 0x69%N
  else c.

Definition viet_ci_eq (p c : N) : bool :=
  (viet_lower c =? viet_lower p)%N
  || ((viet_lower p =? 0x69) && (c =? 0x131))%N
  || ((viet_lower p =? 0x73) && (c =? 0x17F))%N.

Definition viet_upper (c : N) : py_str :=
  if ((97 <=? c) && (c <=? 122))%N then [(c - 32)%N]
  else if ((224 <=? c) && (c <=? 254) && negb (c =? 247))%N then [(c - 32)%N]
  else if (c =? 0xDF)%N then [83%N; 83%N]
  else if (c =? 0xFF)%N then [0x178%N]
  else if (c =? 0xB5)%N then [0x39C%N]
  else if ((c =? 0x103) || (c =? 0x111) || (c =? 0x129) || (c =? 0x169)
           || (c =? 0x1A1) || (c =? 0x1B0))%N then [(c - 1)%N]
  else if ((0x1EA1 <=? c) && (c <=? 0x1EF9) && N.odd c)%N then [(c - 1)%N]
  else [c].

Definition py_is_space (c : N) : bool :=
  ((9 <=? c) && (c <=? 13) || (28 <=? c) && (c <=? 32) || (c =? 0x85)
   || (c =? 0xA0) || (c =? 0x1680) || (0x2000 <=? c) && (c <=? 0x200A)
   || (c =? 0x2028) || (c =? 0x2029) || (c =? 0x202F) || (c =? 0x205F)
   || (c =? 0x3000))%N.

(** Texts of one to fifteen decimal digits are numbers (exact in binary64);
    any other text is taken as no number. *)
Definition digit_value (c : N) : option float :=
  if (c =? 48)%N then Some 0%float else if (c =? 49)%N then Some 1%float
  else if (c =? 50)%N then Some 2%float else if (c =? 51)%N then Some 3%float
  else if (c =? 52)%N then Some 4%float else if (c =? 53)%N then Some 5%float
  else if (c =? 54)%N then Some 6%float else if (c =? 55)%N then Some 7%float
  else if (c =? 56)%N then Some 8%float else if (c =? 57)%N then Some 9%float
  else None.

Fixpoint digits_value (acc : float) (t : py_str) : option float :=
  match t with
  | [] => Some acc
  | c :: t' =>
      match digit_value c with
      | Some d => digits_value (acc * 10 + d)%float t'
      | None => None
      end
  end.

Definition parse_digits (t : py_str) : option float :=
  match t with
  | [] => None
  | _ :: _ => if bool_decide (length t ≤ 15) then digits_value 0%float t else None
  end.

Definition viet_runtime : Runtime := {|
  parse_number := parse_digits;
  ci_eq := viet_ci_eq;
  upper_char := viet_upper;
  is_space := py_is_space
|}.


(** The statement of the worked example, under the labels of the script. *)
Definition example_rows : list line_item :=
  [ {| label := Str TONG_CONG_TAI_SAN;
       prior_value := Num 1000; current_value := Num 1200 |};
    {| label := Str TAI_SAN_NGAN_HAN;
       prior_value := Num 400; current_value := Num 600 |};
    {| label := Str NO_NGAN_HAN;
       prior_value := Num 200; current_value := Num 300 |} ].

(** A statement with a row whose prior value is 0, and no liquidity rows. *)
Definition zero_prior_row : line_item :=
  {| label := Str (py "Hàng tồn kho");
     prior_value := Num 0; current_value := Num 50 |}.

Definition zero_prior_rows : list line_item :=
  [ {| label := Str TONG_CONG_TAI_SAN;
       prior_value := Num 1000; current_value := Num 1200 |};
    zero_prior_row ].



(** A statement with text in value cells. *)
Definition text_row : line_item :=
  {| label := Str TONG_CONG_TAI_SAN;
     prior_value := Str (py "abc"); current_value := Str (py "chưa có") |}.

Definition text_rows : list line_item :=
  [ text_row;
    {| label := Str TAI_SAN_NGAN_HAN;
       prior_value := Num 400; current_value := Num 600 |} ].

(** Statements whose short-term liabilities are text, coerced to 0; in the
    second one the short-term assets of the current period are 0 as well. *)
Definition tsnh_row : line_item :=
  {| label := Str TAI_SAN_NGAN_HAN;
     prior_value := Num 400; current_value := Num 600 |}.

Definition tsnh_zero_row : line_item :=
  {| label := Str TAI_SAN_NGAN_HAN;
     prior_value := Num 400; current_value := Num 0 |}.

Definition no_text_row : line_item :=
  {| label := Str NO_NGAN_HAN;
     prior_value := Num 200; current_value := Str (py "abc") |}.

Definition tong_row : line_item :=
  {| label := Str TONG_CONG_TAI_SAN;
     prior_value := Num 1000; current_value := Num 1200 |}.

Definition zero_liabilities_rows : list line_item :=
  [ tong_row; tsnh_row; no_text_row ].

Definition zero_assets_and_liabilities_rows : list line_item :=
  [ tong_row; tsnh_zero_row; no_text_row ].

(** The worked example under English labels. *)
Definition english_rows : list line_item :=
  [ {| label := Str (py "TOTAL ASSETS");
       prior_value := Num 1000; current_value := Num 1200 |};
    {| label := Str (py "SHORT-TERM ASSETS");
       prior_value := Num 400; current_value := Num 600 |};
    {| label := Str (py "SHORT-TERM LIABILITIES");
       prior_value := Num 200; current_value := Num 300 |} ].

(** The worked example with the short-term-assets row labelled as balance
    sheets number it. *)
Definition numbered_label_row : line_item :=
  {| label := Str (py "A. TÀI SẢN NGẮN HẠN");
     prior_value := Num 400; current_value := Num 600 |}.

Definition numbered_label_rows : list line_item :=
  [ tong_row;
    numbered_label_row;
    {| label := Str NO_NGAN_HAN;
       prior_value := Num 200; current_value := Num 300 |} ].

(** A statement with two rows that contain the total-assets text, the first
    of them with prior value 0, after a row that does not. *)
Definition zero_anchor_row : line_item :=
  {| label := Str (py "Tổng cộng tài sản");
     prior_value := Num 0; current_value := Num 1200 |}.

Definition two_anchor_rows : list line_item :=
  [ {| label := Str (py "Hàng tồn kho");
       prior_value := Num 30; current_value := Num 50 |};
    zero_anchor_row;
    {| label := Str (py "TỔNG CỘNG TÀI SẢN (hợp nhất)");
       prior_value := Num 5000; current_value := Num 6000 |} ].




(** The store with one frame, at reference 1. *)
Definition store_of (rows : list line_item) : heap :=
  {[ 1%positive := frame_of rows ]}.

(* ===================================================================== *)
(** ** Value columns with their dtype (lines 19-28) *)
(* ===================================================================== *)







(** Which texts [pd.to_numeric] reads as integers, and as which. A text it
    does not read as an integer goes to [parse_number]. *)
Class Int_texts := {
  parse_int64 : py_str → option Z
}.

Section Dtypes.
Context `{Runtime} `{Int_texts}.

















End Dtypes.

(** Texts of one to eighteen decimal digits are integers. *)
Fixpoint digits_Z (acc : Z) (t : py_str) : option Z :=
  match t with
  | [] => Some acc
  | c :: t' =>
      if ((48 <=? c) && (c <=? 57))%N
      then digits_Z (acc * 10 + Z.of_N (c - 48)) t'
      else None
  end.

Definition digits_int64 : Int_texts := {|
  parse_int64 := λ t,
    match t with
    | [] => None
    | _ :: _ => if bool_decide (length t ≤ 18) then digits_Z 0 t else None
    end
|}.


(* ===================================================================== *)
(** ** The chat (lines 85-152 and 265-298) *)
(* ===================================================================== *)

(** An entry of [st.session_state.messages]: [{"role": ..., "content": ...}]. *)
Record message := {
  role : py_str;
  content : py_str
}.

(** An entry of the contents sent to the model:
    [{"role": ..., "parts": [{"text": ...}]}]. *)
Record turn := {
  turn_role : py_str;
  turn_text : py_str
}.

(** What [genai.Client(api_key=...).models.generate_content(...)] comes to:
    the text of a response, an [APIError] or another exception, each
    exception with its [str]. *)
Inductive api_result :=
  | Response (t : py_str)
  | APIError (e : py_str)
  | OtherError (e : py_str).

(** What the chat takes from outside the script: the rendering of
    [df.to_markdown(index=False)], taken as total, and the model behind a
    key and a model name. *)
Class Services := {
  render_markdown : DataFrame → py_str;
  generate_content : py_str → string → list turn → api_result
}.

Definition user : py_str := py "user".
Definition assistant : py_str := py "assistant".
Definition model : py_str := py "model".

Definition model_name : string := "gemini-2.5-flash".

(** Lines 112-117. *)
Definition system_instruction : py_str :=
  py "Bạn là một chuyên gia phân tích tài chính Python/Streamlit rất giàu kinh nghiệm."
  ++ py "Hãy trả lời các câu hỏi của người dùng dựa trên Dữ liệu Tài chính đã cung cấp."
  ++ py "Chỉ sử dụng dữ liệu từ bảng để trả lời. Nếu không thể tính toán hoặc không có dữ liệu,"
  ++ py "hãy nói rằng bạn không tìm thấy thông tin cần thiết.".

(** Lines 120-124; 10 is the line feed. *)
Definition full_prompt (context_data prompt : py_str) : py_str :=
  system_instruction ++ [10%N; 10%N]
  ++ py "DỮ LIỆU TÀI CHÍNH ĐÃ PHÂN TÍCH:" ++ [10%N] ++ context_data ++ [10%N; 10%N]
  ++ py "CÂU HỎI CỦA NGƯỜI DÙNG: " ++ prompt.

(** One entry of the comprehension of lines 127-134, for the index [i] and
    the message [msg] of [enumerate]. *)
Definition history_turn (fp : py_str) (i : nat) (msg : message) : turn :=
  if bool_decide (role msg = user) && bool_decide (i = 0)
  then {| turn_role := user; turn_text := fp |}
  else if bool_decide (role msg = user)
  then {| turn_role := user; turn_text := content msg |}
  else {| turn_role := model; turn_text := content msg |}.

(** Lines 127-140: the contents built from the session's messages. *)
Definition messages_history (fp prompt : py_str) (messages : list message)
  : list turn :=
  let history := imap (history_turn fp) messages in
  match messages with
  | [] => [ {| turn_role := user; turn_text := fp |} ]
  | _ :: _ => history ++ [ {| turn_role := user; turn_text := prompt |} ]
  end.

(** Lines 147-152: the text returned for each end of the call. *)
Definition reply_of (r : api_result) : py_str :=
  match r with
  | Response t => t
  | APIError e =>
      py "Lỗi gọi Gemini API: Vui lòng kiểm tra Khóa API hoặc giới hạn sử dụng. Chi tiết lỗi: " ++ e
  | OtherError e => py "Đã xảy ra lỗi không xác định: " ++ e
  end.

(** Lines 95-152, for a processed frame [d] and the session's messages. *)
Definition get_chat_response `{Services} (prompt api_key : py_str)
    (d : DataFrame) (messages : list message) : py_str :=
  let context_data := render_markdown d in
  let fp := full_prompt context_data prompt in
  reply_of (generate_content api_key model_name
              (messages_history fp prompt messages)).

(** Truth of an optional [str]: [None] and the empty text are false. *)
Definition truthy (s : option py_str) : bool :=
  match s with
  | Some (_ :: _) => true
  | _ => false
  end.

(** Lines 264-298: one run of the chat input, from the session's messages
    to the session's messages. A run with a prompt and without a key goes
    through lines 268-279, and line 279 is a [return] outside any function,
    which Python gives no meaning: that run has no result here ([None]). The
    other runs do not reach line 279. *)
Definition on_chat_input `{Services} (prompt api_key : option py_str)
    (d : DataFrame) (messages : list message) : option (list message) :=
  match prompt with
  | Some (c :: p) =>
      let prompt := c :: p in
      if negb (truthy api_key)
      then None
      else
        let messages := messages ++ [ {| role := user; content := prompt |} ] in
        let full_response :=
          get_chat_response prompt (default [] api_key) d messages in
        Some (messages ++ [ {| role := assistant; content := full_response |} ])
  | _ => Some messages
  end.

(** The session after a sequence of chat inputs (prompt, key), from the
    empty list of line 89, when every run of the sequence has a result. *)
Definition chat_session `{Services} (d : DataFrame)
    (inputs : list (option py_str * option py_str)) : option (list message) :=
  foldl (λ session input, session ≫= on_chat_input input.1 input.2 d)
        (Some []) inputs.

(** User and assistant messages in turn, the user first. *)
Fixpoint alternating (messages : list message) : Prop :=
  match messages with
  | [] => True
  | u :: rest =>
      match rest with
      | [] => False
      | a :: rest' => role u = user ∧ role a = assistant ∧ alternating rest'
      end
  end.

(** Frames without one of the value columns, and a statement in which a
    label that contains the short-term-assets text comes before the label
    that is that text. *)
Definition frame_without_values : DataFrame :=
  [ (Chi_tieu, [Str TONG_CONG_TAI_SAN]) ].

Definition frame_without_Nam_sau : DataFrame :=
  [ (Chi_tieu, [Str TONG_CONG_TAI_SAN]); (Nam_truoc, [Str (py "abc")]) ].



(** A model that answers every request with the same text, and a session
    of two chat inputs, each with a key. *)
Definition echo_services : Services := {|
  render_markdown := λ _, py "|bảng|";
  generate_content := λ _ _ _, Response (py "ok")
|}.

Definition two_inputs : list (option py_str * option py_str) :=
  [ (Some (py "Tăng trưởng?"), Some (py "key"));
    (Some (py "Tỷ trọng?"), Some (py "key")) ].

(** A computation that leaves every store as it finds it. *)
Definition read_only {A} (m : M A) : Prop := ∀ h : heap, (m h).2 = h.


(* ===================================================================== *)
(** ** Running the monad *)
(* ===================================================================== *)

Lemma bind_unfold {A B} (m : M A) (f : A → M B) (h : heap) :
  (m ≫= f) h
  = match m h with
    | (Ok a, h') => f a h'
    | (Raise e, h') => (Raise e, h')
    end.
Proof. reflexivity. Qed.

Lemma bind_run {A B} (m : M A) (f : A → M B) (h h' : heap) (a : A) :
  m h = (Ok a, h') → (m ≫= f) h = f a h'.
Proof. intros E. unfold mbind, M_bind. by rewrite E. Qed.

Lemma bind_raise {A B} (m : M A) (f : A → M B) (h h' : heap) (e : exn) :
  m h = (Raise e, h') → (m ≫= f) h = (Raise e, h').
Proof. intros E. unfold mbind, M_bind. by rewrite E. Qed.

Lemma load_run (h : heap) (l : loc) (d : DataFrame) :
  h !! l = Some d → load l h = (Ok d, h).
Proof. intros E. unfold load. by rewrite E. Qed.

Section Access.
Context `{Runtime}.

Lemma getitem_run (h : heap) (l : loc) (d : DataFrame) col s :
  h !! l = Some d → df_get col d = Ok s → getitem l col h = (Ok s, h).
Proof.
  intros E G. unfold getitem.
  rewrite (bind_run _ _ h h d (load_run h l d E)). unfold lift. by rewrite G.
Qed.

Lemma setitem_run (h : heap) (l : loc) (d : DataFrame) col s :
  h !! l = Some d → setitem l col s h = (Ok (), <[l := df_set col s d]> h).
Proof.
  intros E. unfold setitem.
  by rewrite (bind_run _ _ h h d (load_run h l d E)).
Qed.

End Access.

(** One step of a run: the next bind of the goal is a column read, a column
    write, a load or a pure computation. *)
Ltac run_getitem :=
  erewrite bind_run;
  [| eapply getitem_run;
     [first [eassumption | apply lookup_insert_eq] | reflexivity]].

Ltac run_setitem :=
  erewrite bind_run;
  [| eapply setitem_run; first [eassumption | apply lookup_insert_eq]];
  rewrite ?insert_insert_eq.

Ltac run_load :=
  erewrite bind_run;
  [| eapply load_run; first [eassumption | apply lookup_insert_eq]].

Ltac run_lift :=
  erewrite bind_run; [| unfold lift; reflexivity].

Section Steps.
Context `{Runtime}.

(** *** Series of a frame built from rows *)

Lemma fillna_to_numeric (f : line_item → cell) (rows : list line_item) :
  fillna 0 (to_numeric (f <$> rows)) = (λ r, Num (normalized (f r))) <$> rows.
Proof.
  unfold fillna, to_numeric. rewrite <- !list_fmap_compose.
  apply list_fmap_ext. intros _ r _. simpl. unfold normalized.
  destruct (f r) as [x|t]; [by destruct (is_nan x)|].
  destruct (parse_number t) as [x|]; [by destruct (is_nan x)|done].
Qed.

Lemma series_op_rows op (f g : line_item → float) (rows : list line_item) :
  series_op op ((λ r, Num (f r)) <$> rows) ((λ r, Num (g r)) <$> rows)
  = Ok ((λ r, Num (op (f r) (g r))) <$> rows).
Proof. induction rows as [|r rows IH]; [done|]. csimpl. by rewrite IH. Qed.

Lemma series_scalar_op_rows op (f : line_item → float) k (rows : list line_item) :
  series_scalar_op op ((λ r, Num (f r)) <$> rows) (Num k)
  = Ok ((λ r, Num (op (f r) k)) <$> rows).
Proof. induction rows as [|r rows IH]; [done|]. csimpl. by rewrite IH. Qed.

Lemma zero_guard_replace (x : float) :
  (if (x =? 0)%float then 1e-9%float else x) = zero_guard x.
Proof. unfold zero_guard. by destruct (x =? 0)%float. Qed.

Lemma replace_rows (f : line_item → float) (rows : list line_item) :
  replace 0 1e-9 ((λ r, Num (f r)) <$> rows)
  = (λ r, Num (zero_guard (f r))) <$> rows.
Proof.
  unfold replace. rewrite <- list_fmap_compose.
  apply list_fmap_ext. intros _ r _. simpl.
  rewrite <- zero_guard_replace. by destruct (f r =? 0)%float.
Qed.

Lemma mask_select_rows (p : line_item → bool) (f : line_item → cell)
    (rows : list line_item) :
  mask_select (p <$> rows) (f <$> rows) = f <$> List.filter p rows.
Proof.
  induction rows as [|r rows IH]; [done|]. csimpl.
  destruct (p r); csimpl; by rewrite IH.
Qed.

Lemma iloc0_filter (p : line_item → bool) (f : line_item → cell)
    (rows : list line_item) :
  iloc0 (f <$> List.filter p rows)
  = match List.find p rows with
    | Some r => Ok (f r)
    | None => Raise IndexError
    end.
Proof.
  induction rows as [|r rows IH]; [done|]. simpl.
  destruct (p r); [done|]. apply IH.
Qed.

Lemma filter_nil_find (p : line_item → bool) (rows : list line_item) :
  List.filter p rows = [] ↔ List.find p rows = None.
Proof.
  induction rows as [|r rows IH]; [done|]. simpl.
  destruct (p r); [split; discriminate|]. apply IH.
Qed.

Lemma find_head (p : line_item → bool) (rows : list line_item) :
  List.find p rows = head (List.filter p rows).
Proof.
  induction rows as [|r rows IH]; [done|]. simpl. by destruct (p r).
Qed.

Lemma str_accessor_rows (rows : list line_item) :
  str_accessor (label <$> rows)
  = if has_text_labels rows then Ok (label <$> rows) else Raise AttributeError.
Proof.
  destruct rows as [|r rows]; [done|].
  unfold str_accessor, has_text_labels. rewrite fmap_cons.
  rewrite <- fmap_cons.
  replace (existsb is_text (label <$> r :: rows))
    with (existsb (λ r, is_text (label r)) (r :: rows)); [done|].
  generalize (r :: rows). intros l.
  induction l as [|x l IH]; [done|]. csimpl. by rewrite IH.
Qed.

Lemma str_contains_rows pat (rows : list line_item) :
  str_contains pat (label <$> rows)
  = if has_text_labels rows then Ok (matches pat <$> rows)
    else Raise AttributeError.
Proof.
  unfold str_contains. rewrite str_accessor_rows.
  destruct (has_text_labels rows); [|done].
  by rewrite <- list_fmap_compose.
Qed.

Lemma matches_is_text pat (r : line_item) :
  matches pat r = true → is_text (label r) = true.
Proof. unfold matches. by destruct (label r). Qed.

(** A column with a match is a text column. *)
Lemma first_row_has_text pat (rows : list line_item) (a : line_item) :
  first_row pat rows = Some a → has_text_labels rows = true.
Proof.
  unfold first_row. intros Hf. apply find_some in Hf as [Hin Hm].
  destruct rows as [|r rows]; [done|]. unfold has_text_labels.
  apply existsb_exists. exists a. split; [done|]. by apply (matches_is_text pat).
Qed.

Lemma no_text_no_match pat (rows : list line_item) :
  has_text_labels rows = false → first_row pat rows = None.
Proof.
  intros Hn. destruct (first_row pat rows) as [a|] eqn:E; [|done].
  by rewrite (first_row_has_text _ _ _ E) in Hn.
Qed.

Lemma df_mask_with_growth pat (rows : list line_item) :
  df_mask (matches pat <$> rows) (with_growth rows)
  = with_growth (List.filter (matches pat) rows).
Proof.
  unfold df_mask, with_growth, coerced.
  cbn [app fmap list_fmap fst snd]. by rewrite !mask_select_rows.
Qed.

Lemma df_get_mask col mask (d : DataFrame) s :
  df_get col d = Ok s → df_get col (df_mask mask d) = Ok (mask_select mask s).
Proof.
  induction d as [|[name s0] d IH]; [done|]. csimpl.
  destruct (String.eqb name col); [by intros [= ->]|]. apply IH.
Qed.

(** *** The runs of the script's parts on a frame built from rows *)

Lemma coerce_columns_run (h : heap) (l : loc) (rows : list line_item) :
  h !! l = Some (frame_of rows) →
  coerce_columns l numeric_cols h = (Ok (), <[l := coerced rows]> h).
Proof.
  intros E. unfold numeric_cols. cbn [coerce_columns].
  run_getitem. run_setitem. run_getitem. run_setitem.
  cbn [df_set frame_of].
  rewrite !fillna_to_numeric. reflexivity.
Qed.

Lemma process_financial_data_run (h : heap) (l : loc) (rows : list line_item) :
  h !! l = Some (frame_of rows) →
  process_financial_data l h
  = match first_row TONG_CONG_TAI_SAN rows with
    | Some a => (Ok l, <[l := enriched rows a]> h)
    | None => (Raise (no_anchor_exn rows), <[l := with_growth rows]> h)
    end.
Proof.
  intros E. unfold process_financial_data.
  erewrite bind_run by (by apply coerce_columns_run).
  run_getitem. run_getitem. cbn [coerced].
  rewrite series_op_rows. run_lift. run_getitem.
  rewrite replace_rows, series_op_rows. run_lift.
  rewrite series_scalar_op_rows. run_lift.
  run_setitem. run_getitem.
  change (df_set Toc_do_tang_truong _ _) with (with_growth rows).
  rewrite str_contains_rows. unfold no_anchor_exn.
  destruct (has_text_labels rows) eqn:Ht.
  2: { erewrite bind_raise by (unfold lift; reflexivity).
       by rewrite (no_text_no_match _ _ Ht). }
  run_lift. run_load.
  rewrite df_mask_with_growth. unfold first_row. rewrite find_head.
  destruct (List.filter (matches TONG_CONG_TAI_SAN) rows) as [|a rest]; [done|].
  cbn [df_empty with_growth coerced app fmap list_fmap head].
  run_lift. run_lift. run_lift. run_lift.
  run_getitem. cbn [coerced].
  rewrite series_scalar_op_rows. cbn [mbind outcome_bind].
  rewrite series_scalar_op_rows. run_lift. run_setitem.
  run_getitem.
  rewrite series_scalar_op_rows. cbn [mbind outcome_bind].
  rewrite series_scalar_op_rows. run_lift. run_setitem.
  reflexivity.
Qed.

Lemma fresh_ne (h : heap) (l : loc) (d : DataFrame) :
  h !! l = Some d → fresh (dom h) ≠ l.
Proof.
  intros E Hl. apply (is_fresh (dom h)). rewrite Hl. apply elem_of_dom. by exists d.
Qed.

Lemma derive_run (h : heap) (l : loc) (rows : list line_item) :
  h !! l = Some (frame_of rows) →
  derive l h
  = match first_row TONG_CONG_TAI_SAN rows with
    | Some a => (Ok (fresh (dom h)), <[fresh (dom h) := enriched rows a]> h)
    | None => (Raise (no_anchor_exn rows),
               <[fresh (dom h) := with_growth rows]> h)
    end.
Proof.
  intros E. unfold derive, copy.
  erewrite bind_run; [| erewrite bind_run by (by apply load_run); reflexivity].
  rewrite (process_financial_data_run _ _ rows) by apply lookup_insert_eq.
  destruct (first_row TONG_CONG_TAI_SAN rows); by rewrite insert_insert_eq.
Qed.

Lemma observe_derive (h : heap) (l : loc) (rows : list line_item) :
  h !! l = Some (frame_of rows) →
  observe (derive l h)
  = match first_row TONG_CONG_TAI_SAN rows with
    | Some a => Ok (Some (enriched rows a))
    | None => Raise (no_anchor_exn rows)
    end.
Proof.
  intros E. rewrite (derive_run _ _ rows E).
  destruct (first_row TONG_CONG_TAI_SAN rows); [|done].
  unfold observe. simpl. by rewrite lookup_insert_eq.
Qed.

Lemma first_match_run (h : heap) (l : loc) (rows : list line_item) a pat col
    (f : line_item → cell) :
  h !! l = Some (enriched rows a) →
  has_text_labels rows = true →
  df_get col (enriched rows a) = Ok (f <$> rows) →
  first_match l pat col h
  = (match first_row pat rows with
     | Some r => Ok (f r)
     | None => Raise IndexError
     end, h).
Proof.
  intros E Ht G. unfold first_match.
  run_getitem. rewrite str_contains_rows, Ht. run_lift. run_load. unfold lift.
  rewrite (df_get_mask _ _ _ _ G), mask_select_rows.
  cbn [mbind outcome_bind]. by rewrite iloc0_filter.
Qed.

Lemma thanh_toan_hien_hanh_run (h : heap) (l : loc) (rows : list line_item) a :
  h !! l = Some (enriched rows a) →
  has_text_labels rows = true →
  thanh_toan_hien_hanh l h
  = (match first_row TAI_SAN_NGAN_HAN rows, first_row NO_NGAN_HAN rows with
     | Some s, Some n =>
         Ok (Num (current s / current n), Num (prior s / prior n))
     | _, _ => Ok (Str NA, Str NA)
     end, h).
Proof.
  intros E Ht. unfold thanh_toan_hien_hanh, try_except_IndexError.
  destruct (first_row TAI_SAN_NGAN_HAN rows) as [s|] eqn:Es.
  - erewrite bind_run;
      [| by rewrite (first_match_run _ _ rows a _ _ (λ r, Num (current r)) E Ht), Es].
    erewrite bind_run;
      [| by rewrite (first_match_run _ _ rows a _ _ (λ r, Num (prior r)) E Ht), Es].
    destruct (first_row NO_NGAN_HAN rows) as [n|] eqn:En.
    + erewrite bind_run;
        [| by rewrite (first_match_run _ _ rows a _ _ (λ r, Num (current r)) E Ht), En].
      erewrite bind_run;
        [| by rewrite (first_match_run _ _ rows a _ _ (λ r, Num (prior r)) E Ht), En].
      reflexivity.
    + erewrite bind_raise;
        [| by rewrite (first_match_run _ _ rows a _ _ (λ r, Num (current r)) E Ht), En].
      reflexivity.
  - erewrite bind_raise;
      [| by rewrite (first_match_run _ _ rows a _ _ (λ r, Num (current r)) E Ht), Es].
    reflexivity.
Qed.

Lemma upload_metrics_run (h : heap) (l : loc) (rows : list line_item) :
  h !! l = Some (frame_of rows) →
  upload_metrics l h
  = match first_row TONG_CONG_TAI_SAN rows with
    | Some a =>
        (Ok (fresh (dom h),
             match first_row TAI_SAN_NGAN_HAN rows, first_row NO_NGAN_HAN rows with
             | Some s, Some n =>
                 (Num (current s / current n), Num (prior s / prior n))
             | _, _ => (Str NA, Str NA)
             end),
         <[fresh (dom h) := enriched rows a]> h)
    | None => (Raise (no_anchor_exn rows),
               <[fresh (dom h) := with_growth rows]> h)
    end.
Proof.
  intros E. unfold upload_metrics.
  rewrite bind_unfold, (derive_run _ _ rows E).
  destruct (first_row TONG_CONG_TAI_SAN rows) as [a|] eqn:Ea; [|done].
  rewrite bind_unfold, (thanh_toan_hien_hanh_run _ _ rows a)
    by (apply lookup_insert_eq || by apply (first_row_has_text _ _ _ Ea)).
  by destruct (first_row TAI_SAN_NGAN_HAN rows), (first_row NO_NGAN_HAN rows).
Qed.

End Steps.

(* ===================================================================== *)
(** ** First matches and column reads *)
(* ===================================================================== *)

Section Lookup.
Context `{Runtime}.

Lemma first_row_None pat (rows : list line_item) :
  (∀ r, r ∈ rows → matches pat r = false) → first_row pat rows = None.
Proof.
  unfold first_row. induction rows as [|r rows IH]; [done|].
  intros Hall. simpl. rewrite (Hall r) by apply list_elem_of_here.
  apply IH. intros r' Hr'. apply Hall. by apply list_elem_of_further.
Qed.

(** A statement in which every row has a text label has a text column of
    labels. *)
Lemma labelled_has_text (rows : list line_item) :
  (∀ r, r ∈ rows → is_text (label r) = true) → has_text_labels rows = true.
Proof.
  destruct rows as [|r rows]; [done|]. intros Hall.
  unfold has_text_labels. apply existsb_exists. exists r.
  split; [by left|]. apply Hall, list_elem_of_here.
Qed.

Lemma first_row_None_inv pat (rows : list line_item) r :
  first_row pat rows = None → r ∈ rows → matches pat r = false.
Proof.
  unfold first_row. intros Hn Hr. apply list_elem_of_In in Hr.
  by apply (find_none _ _ Hn).
Qed.

Lemma first_row_is_Some pat (rows : list line_item) r :
  r ∈ rows → matches pat r = true → is_Some (first_row pat rows).
Proof.
  intros Hr Hm. destruct (first_row pat rows) eqn:E; [by eexists|].
  by rewrite (first_row_None_inv _ _ _ E Hr) in Hm.
Qed.

(** The first match is the match with no match before it. *)
Lemma first_row_at pat (rows : list line_item) (k : nat) (a : line_item) :
  rows !! k = Some a →
  matches pat a = true →
  (∀ j r, j < k → rows !! j = Some r → matches pat r = false) →
  first_row pat rows = Some a.
Proof.
  unfold first_row. revert k.
  induction rows as [|r rows IH]; intros k Hk Ha Hbefore; [done|].
  destruct k as [|k]; simpl in *.
  - injection Hk as ->. by rewrite Ha.
  - rewrite (Hbefore 0 r) by (done || lia).
    apply (IH k); [done..|].
    intros j r' Hj Hr'. apply (Hbefore (S j) r'); [lia|done].
Qed.

Lemma column_rows col (d : DataFrame) (f : line_item → cell)
    (rows : list line_item) (i : nat) (r : line_item) :
  df_get col d = Ok (f <$> rows) →
  rows !! i = Some r →
  column col d !! i = Some (f r).
Proof.
  intros G Hr. unfold column. by rewrite G, list_lookup_fmap, Hr.
Qed.

End Lookup.

(* ===================================================================== *)
(** ** The value columns with their dtype *)
(* ===================================================================== *)

Section Dtype_steps.
Context `{Runtime} `{Int_texts}.







End Dtype_steps.

(* ===================================================================== *)
(** ** Properties of the derivation *)
(* ===================================================================== *)


(** C2. When some label contains the total-assets text, the derivation
    succeeds, the anchor values are those of the first such row [a], and
    every row gets [prior / denom(anchor_prior) * 100] and
    [current / denom(anchor_current) * 100], where [denom(x)] is [1e-9] when
    [x] is 0 and [x] otherwise, each denominator guarded on its own. *)
Theorem weights_over_first_anchor `{Runtime}
    (h : heap) (l : loc) (rows : list line_item) (k : nat) (a : line_item) :
  h !! l = Some (frame_of rows) →
  rows !! k = Some a →
  matches TONG_CONG_TAI_SAN a = true →
  (∀ j r, j < k → rows !! j = Some r → matches TONG_CONG_TAI_SAN r = false) →
  ∃ d : DataFrame,
    process_financial_data l h = (Ok l, <[l := d]> h) ∧
    ∀ i r, rows !! i = Some r →
      column Ty_trong_Nam_truoc d !! i
        = Some (Num (prior r
                     / (if (prior a =? 0)%float then 1e-9 else prior a)
                     * 100)) ∧
      column Ty_trong_Nam_sau d !! i
        = Some (Num (current r
                     / (if (current a =? 0)%float then 1e-9 else current a)
                     * 100)).
Proof.
  intros E Hk Ha Hfirst.
  rewrite (process_financial_data_run _ _ rows E).
  rewrite (first_row_at _ _ k a Hk Ha Hfirst).
  eexists. split; [reflexivity|]. intros i r Hr.
  rewrite !zero_guard_replace. split.
  - by apply (column_rows _ _ (λ r, Num (weight_pct (prior r) (prior a))) rows).
  - by apply (column_rows _ _ (λ r, Num (weight_pct (current r) (current a))) rows).
Qed.


(** C4. A text cell that is no number is 0 in the coerced column, and the
    ratios are computed from the coerced columns; the derivation succeeds
    whenever some label contains the total-assets text, whatever the value
    cells hold, and when it does not succeed no label contains that text. *)
Theorem malformed_numbers_become_zero `{Runtime}
    (h : heap) (l : loc) (rows : list line_item) :
  h !! l = Some (frame_of rows) →
  ((∃ r, r ∈ rows ∧ matches TONG_CONG_TAI_SAN r = true) →
   (process_financial_data l h).1 = Ok l) ∧
  ((process_financial_data l h).1 ≠ Ok l →
   ∀ r, r ∈ rows → matches TONG_CONG_TAI_SAN r = false) ∧
  ∃ d : DataFrame,
    (process_financial_data l h).2 !! l = Some d ∧
    ∀ i r, rows !! i = Some r →
      (∀ t, prior_value r = Str t → parse_number t = None →
            column Nam_truoc d !! i = Some (Num 0)) ∧
      (∀ t, current_value r = Str t → parse_number t = None →
            column Nam_sau d !! i = Some (Num 0)) ∧
      column Toc_do_tang_truong d !! i
        = Some (Num ((normalized (current_value r) - normalized (prior_value r))
                     / zero_guard (normalized (prior_value r)) * 100)).
Proof.
  intros E. rewrite (process_financial_data_run _ _ rows E).
  split; [|split].
  - intros (r & Hr & Hm).
    destruct (first_row_is_Some _ _ _ Hr Hm) as [a ->]. done.
  - destruct (first_row TONG_CONG_TAI_SAN rows) as [a|] eqn:Ea; [done|].
    intros _ r. by apply first_row_None_inv.
  - assert (∀ d : DataFrame,
      df_get Nam_truoc d = Ok ((λ r, Num (prior r)) <$> rows) →
      df_get Nam_sau d = Ok ((λ r, Num (current r)) <$> rows) →
      df_get Toc_do_tang_truong d = Ok ((λ r, Num (growth_pct r)) <$> rows) →
      ∀ i r, rows !! i = Some r →
        (∀ t, prior_value r = Str t → parse_number t = None →
              column Nam_truoc d !! i = Some (Num 0)) ∧
        (∀ t, current_value r = Str t → parse_number t = None →
              column Nam_sau d !! i = Some (Num 0)) ∧
        column Toc_do_tang_truong d !! i
          = Some (Num ((normalized (current_value r) - normalized (prior_value r))
                       / zero_guard (normalized (prior_value r)) * 100)))
      as Hcols.
    { intros d Gp Gc Gg i r Hr. split; [|split].
      - intros t Ht Hparse. rewrite (column_rows _ _ _ _ _ _ Gp Hr).
        unfold prior, normalized. by rewrite Ht, Hparse.
      - intros t Ht Hparse. rewrite (column_rows _ _ _ _ _ _ Gc Hr).
        unfold current, normalized. by rewrite Ht, Hparse.
      - by rewrite (column_rows _ _ _ _ _ _ Gg Hr). }
    destruct (first_row TONG_CONG_TAI_SAN rows) as [a|]; eexists;
      (split; [apply lookup_insert_eq | by apply Hcols]).
Qed.

(** What a report that was built holds. *)
Lemma on_upload_inv `{Runtime} (h h' : heap) (l : loc) (rep : report) :
  on_upload l h = (Ok rep, h') →
  ∃ m h1 d g,
    upload_metrics l h = (Ok m, h1) ∧
    df_processed rep = m.1 ∧
    thanh_toan_hien_hanh_N rep = m.2.1 ∧
    thanh_toan_hien_hanh_N_1 rep = m.2.2 ∧
    data_for_ai rep
      = [ (py "Toàn bộ Bảng phân tích (dữ liệu thô)", to_markdown d);
          (py "Tăng trưởng Tài sản ngắn hạn (%)", g);
          (py "Thanh toán hiện hành (N-1)", format_plain m.2.2);
          (py "Thanh toán hiện hành (N)", format_plain m.2.1) ].
Proof.
  unfold on_upload. rewrite bind_unfold.
  destruct (upload_metrics l h) as [[m|e] h1]; [|discriminate].
  rewrite bind_unfold. unfold build_data_for_ai. rewrite bind_unfold.
  destruct (load m.1 h1) as [[d|e] h2]; [|discriminate].
  rewrite bind_unfold.
  destruct (tsnh_growth_entry m.1 h2) as [[g|e] h3]; [|discriminate].
  intros [= <- <-]. by exists m, h1, d, g.
Qed.

(** C5. With an anchor row, but no label containing the short-term-assets
    text or none containing the short-term-liabilities text, the derivation
    completes with growth and both weights for every row, and the current
    ratio of both periods is the text N/A; a report that is built shows N/A
    in both ratio entries. *)
Theorem missing_liquidity_rows_give_NA `{Runtime}
    (h : heap) (l : loc) (rows : list line_item) (a : line_item) :
  h !! l = Some (frame_of rows) →
  first_row TONG_CONG_TAI_SAN rows = Some a →
  (∀ r, r ∈ rows → matches TAI_SAN_NGAN_HAN r = false) ∨
  (∀ r, r ∈ rows → matches NO_NGAN_HAN r = false) →
  (∃ d : DataFrame,
     upload_metrics l h
       = (Ok (fresh (dom h), (Str NA, Str NA)), <[fresh (dom h) := d]> h) ∧
     ∀ i r, rows !! i = Some r →
       column Toc_do_tang_truong d !! i
         = Some (Num ((current r - prior r) / zero_guard (prior r) * 100)) ∧
       column Ty_trong_Nam_truoc d !! i
         = Some (Num (prior r / zero_guard (prior a) * 100)) ∧
       column Ty_trong_Nam_sau d !! i
         = Some (Num (current r / zero_guard (current a) * 100))) ∧
  ∀ rep h', on_upload l h = (Ok rep, h') →
    thanh_toan_hien_hanh_N rep = Str NA ∧
    thanh_toan_hien_hanh_N_1 rep = Str NA ∧
    data_for_ai rep !! 2 = Some (py "Thanh toán hiện hành (N-1)", lit NA) ∧
    data_for_ai rep !! 3 = Some (py "Thanh toán hiện hành (N)", lit NA).
Proof.
  intros E Ea Hmiss.
  assert (upload_metrics l h
          = (Ok (fresh (dom h), (Str NA, Str NA)),
             <[fresh (dom h) := enriched rows a]> h)) as Hrun.
  { rewrite (upload_metrics_run _ _ rows E), Ea.
    destruct Hmiss as [Hs|Hn].
    - by rewrite (first_row_None _ _ Hs).
    - rewrite (first_row_None _ _ Hn).
      by destruct (first_row TAI_SAN_NGAN_HAN rows). }
  split.
  - eexists. split; [exact Hrun|]. intros i r Hr. split; [|split].
    + by apply (column_rows _ _ (λ r, Num (growth_pct r)) rows).
    + by apply (column_rows _ _ (λ r, Num (weight_pct (prior r) (prior a))) rows).
    + by apply (column_rows _ _ (λ r, Num (weight_pct (current r) (current a))) rows).
  - intros rep h' Hrep.
    destruct (on_upload_inv _ _ _ _ Hrep) as (m & h1 & d & g & Hm & _ & HN & HN1 & Ht).
    rewrite Hrun in Hm. injection Hm as <- <-.
    rewrite HN, HN1, Ht. done.
Qed.

(** C6. The derivation works on a copy: every object of the caller's store,
    the raw frame among them, is as it was; what the derivation returns
    depends on the rows of the raw frame only, not on where it lives or on what
    else the store holds; and deriving again from the same raw frame, after a
    first derivation, returns the same. *)
Theorem derive_is_pure `{Runtime}
    (h : heap) (l : loc) (rows : list line_item) :
  h !! l = Some (frame_of rows) →
  (∀ l0, l0 ∈ dom h → (derive l h).2 !! l0 = h !! l0) ∧
  (derive l h).2 !! l = Some (frame_of rows) ∧
  (∀ (h2 : heap) (l2 : loc),
     h2 !! l2 = Some (frame_of rows) →
     observe (derive l2 h2) = observe (derive l h)) ∧
  observe (derive l (derive l h).2) = observe (derive l h).
Proof.
  intros E.
  assert (∀ l0, l0 ∈ dom h → (derive l h).2 !! l0 = h !! l0) as Hframe.
  { intros l0 Hl0. rewrite (derive_run _ _ rows E).
    assert (fresh (dom h) ≠ l0) as Hne.
    { intros <-. by apply (is_fresh (dom h)). }
    destruct (first_row TONG_CONG_TAI_SAN rows); simpl;
      by rewrite lookup_insert_ne. }
  assert ((derive l h).2 !! l = Some (frame_of rows)) as Hraw.
  { rewrite Hframe; [done|]. apply elem_of_dom. by eexists. }
  split; [done|]. split; [done|]. split.
  - intros h2 l2 E2.
    by rewrite (observe_derive _ _ rows E2), (observe_derive _ _ rows E).
  - by rewrite (observe_derive _ _ rows Hraw), (observe_derive _ _ rows E).
Qed.

(** C7, amended. The worked example: three rows with values (1000, 1200),
    (400, 600) and (200, 300), whose labels are the total-assets, the
    short-term-assets and the short-term-liabilities label of the script, or
    any labels in these roles (each containing its own text of the script and
    no earlier row containing it). The derivation succeeds; growth of the
    first row is 20, the current weight of the second row is 50, the current
    ratio of the current period is 2 (and 2 for the prior period). *)
Theorem worked_example `{Runtime}
    (h : heap) (l : loc) (l1 l2 l3 : cell) (rows : list line_item) :
  rows = [ {| label := l1; prior_value := Num 1000; current_value := Num 1200 |};
           {| label := l2; prior_value := Num 400; current_value := Num 600 |};
           {| label := l3; prior_value := Num 200; current_value := Num 300 |} ] →
  h !! l = Some (frame_of rows) →
  cell_contains TONG_CONG_TAI_SAN l1 = true →
  cell_contains TAI_SAN_NGAN_HAN l1 = false →
  cell_contains TAI_SAN_NGAN_HAN l2 = true →
  cell_contains NO_NGAN_HAN l1 = false →
  cell_contains NO_NGAN_HAN l2 = false →
  cell_contains NO_NGAN_HAN l3 = true →
  ∃ d : DataFrame,
    upload_metrics l h
      = (Ok (fresh (dom h), (Num 2, Num 2)), <[fresh (dom h) := d]> h) ∧
    column Toc_do_tang_truong d !! 0 = Some (Num 20) ∧
    column Ty_trong_Nam_sau d !! 1 = Some (Num 50).
Proof.
  intros -> E H1 H2 H3 H4 H5 H6.
  rewrite (upload_metrics_run _ _ _ E).
  unfold first_row, matches. cbn [List.find label].
  rewrite H1, H2, H3, H4, H5, H6.
  eexists. split; [reflexivity|]. split; by vm_compute.
Qed.

(** C9. When the derivation succeeds it returns the frame it was given, with
    six columns: the labels as they were, the two value columns coerced to
    numbers, and the three derived columns, each with one cell per input row in
    the input order. No other object of the store is touched. *)
Theorem rows_kept_in_order `{Runtime}
    (h h' : heap) (l l' : loc) (rows : list line_item) :
  h !! l = Some (frame_of rows) →
  process_financial_data l h = (Ok l', h') →
  l' = l ∧
  (∃ g wp wc : Series,
     h' !! l'
       = Some [ (Chi_tieu, label <$> rows);
                (Nam_truoc, (λ r, Num (normalized (prior_value r))) <$> rows);
                (Nam_sau, (λ r, Num (normalized (current_value r))) <$> rows);
                (Toc_do_tang_truong, g);
                (Ty_trong_Nam_truoc, wp);
                (Ty_trong_Nam_sau, wc) ] ∧
     length g = length rows ∧ length wp = length rows ∧
     length wc = length rows) ∧
  ∀ l0, l0 ≠ l → h' !! l0 = h !! l0.
Proof.
  intros E. rewrite (process_financial_data_run _ _ rows E).
  destruct (first_row TONG_CONG_TAI_SAN rows) as [a|]; [|discriminate].
  intros [= <- <-]. split; [done|]. split.
  - eexists _, _, _. split; [by rewrite lookup_insert_eq|].
    by rewrite !length_fmap.
  - intros l0 Hl0. by rewrite lookup_insert_ne.
Qed.

(** C10. The current ratio is the plain quotient of the first
    short-term-assets row by the first short-term-liabilities row, with no
    guard on the divisor: when the liabilities value of the current period is
    0 the ratio of that period is infinity for assets 600 and NaN for
    assets 0, not N/A and not a finite number. *)
Theorem current_ratio_has_no_zero_guard `{Runtime}
    (h : heap) (l : loc) (rows : list line_item) (a s n : line_item) :
  h !! l = Some (frame_of rows) →
  first_row TONG_CONG_TAI_SAN rows = Some a →
  first_row TAI_SAN_NGAN_HAN rows = Some s →
  first_row NO_NGAN_HAN rows = Some n →
  (∃ h' : heap,
     upload_metrics l h
       = (Ok (fresh (dom h),
              (Num (current s / current n), Num (prior s / prior n))), h')) ∧
  (current n = 0%float → current s = 600%float →
   (current s / current n)%float = infinity) ∧
  (current n = 0%float → current s = 0%float →
   is_nan (current s / current n) = true).
Proof.
  intros E Ea Es En. split; [|split].
  - rewrite (upload_metrics_run _ _ rows E), Ea, Es, En. by eexists.
  - by intros -> ->.
  - by intros -> ->.
Qed.

(* ===================================================================== *)
(** ** The properties at concrete statements *)
(* ===================================================================== *)

Section Examples.
#[local] Existing Instance viet_runtime.
#[local] Existing Instance digits_int64.

Lemma store_of_lookup (rows : list line_item) :
  store_of rows !! 1%positive = Some (frame_of rows).
Proof. apply lookup_singleton_eq. Defined.



(** Two rows contain the total-assets text; the first of them is row 1, its
    prior value is 0 and its current value 1200. Row 0 has the weights
    [30 / 1e-9 * 100] and [50 / 1200 * 100], row 2 has [5000 / 1e-9 * 100]
    and [6000 / 1200 * 100]: nothing is divided by the 5000 and 6000 of the
    second match, and only the prior anchor is replaced by 1e-9. *)
Lemma weights_over_first_anchor_witness :
  store_of two_anchor_rows !! 1%positive = Some (frame_of two_anchor_rows) ∧
  two_anchor_rows !! 1 = Some zero_anchor_row ∧
  matches TONG_CONG_TAI_SAN zero_anchor_row = true ∧
  (∀ j r, j < 1 → two_anchor_rows !! j = Some r →
          matches TONG_CONG_TAI_SAN r = false) ∧
  (∃ r, two_anchor_rows !! 2 = Some r ∧ matches TONG_CONG_TAI_SAN r = true ∧
        prior r = 5000%float ∧ current r = 6000%float) ∧
  prior zero_anchor_row = 0%float ∧
  current zero_anchor_row = 1200%float ∧
  ∃ d : DataFrame,
    process_financial_data 1 (store_of two_anchor_rows)
      = (Ok 1%positive, <[1%positive := d]> (store_of two_anchor_rows)) ∧
    column Ty_trong_Nam_truoc d !! 0 = Some (Num (30 / 1e-9 * 100)) ∧
    column Ty_trong_Nam_sau d !! 0 = Some (Num (50 / 1200 * 100)) ∧
    column Ty_trong_Nam_truoc d !! 2 = Some (Num (5000 / 1e-9 * 100)) ∧
    column Ty_trong_Nam_sau d !! 2 = Some (Num 500).
Proof.
  assert (∀ j r, j < 1 → two_anchor_rows !! j = Some r →
                 matches TONG_CONG_TAI_SAN r = false) as Hfirst.
  { intros j r Hj Hr. destruct j as [|j]; [|lia].
    vm_compute in Hr. injection Hr as <-. by vm_compute. }
  split; [apply store_of_lookup|]. split; [reflexivity|].
  split; [by vm_compute|]. split; [exact Hfirst|].
  split; [eexists; split; [reflexivity|]; by vm_compute|].
  do 2 (split; [by vm_compute|]).
  destruct (weights_over_first_anchor (store_of two_anchor_rows) 1
              two_anchor_rows 1 zero_anchor_row) as (d & Hd & Hall);
    [apply store_of_lookup | reflexivity | by vm_compute | exact Hfirst |].
  exists d. split; [exact Hd|].
  destruct (Hall 0 _ eq_refl) as [H0p H0c].
  destruct (Hall 2 _ eq_refl) as [H2p H2c].
  vm_compute in H0p, H0c, H2p, H2c. vm_compute.
  by repeat split.
Defined.



Lemma malformed_numbers_become_zero_witness :
  store_of text_rows !! 1%positive = Some (frame_of text_rows) ∧
  text_rows !! 0 = Some text_row ∧
  parse_number (py "abc") = None ∧
  parse_number (py "chưa có") = None ∧
  (process_financial_data 1 (store_of text_rows)).1 = Ok 1%positive ∧
  ∃ d : DataFrame,
    (process_financial_data 1 (store_of text_rows)).2 !! 1%positive = Some d ∧
    column Nam_truoc d !! 0 = Some (Num 0) ∧
    column Nam_sau d !! 0 = Some (Num 0).
Proof.
  split; [apply store_of_lookup|]. do 3 (split; [reflexivity|]).
  destruct (malformed_numbers_become_zero (store_of text_rows) 1 text_rows
              (store_of_lookup _)) as (Hok & _ & d & Hd & Hrows).
  split.
  { apply Hok. exists text_row. split; [apply list_elem_of_here|reflexivity]. }
  destruct (Hrows 0 text_row eq_refl) as (Hp & Hc & _).
  exists d. split; [exact Hd|]. split.
  - exact (Hp (py "abc") eq_refl eq_refl).
  - exact (Hc (py "chưa có") eq_refl eq_refl).
Defined.

Lemma missing_liquidity_rows_give_NA_witness :
  store_of zero_prior_rows !! 1%positive = Some (frame_of zero_prior_rows) ∧
  first_row TONG_CONG_TAI_SAN zero_prior_rows = Some tong_row ∧
  (∀ r, r ∈ zero_prior_rows → matches TAI_SAN_NGAN_HAN r = false) ∧
  (upload_metrics 1 (store_of zero_prior_rows)).1
    = Ok (2%positive, (Str NA, Str NA)).
Proof.
  assert (∀ r, r ∈ zero_prior_rows → matches TAI_SAN_NGAN_HAN r = false) as Hnone.
  { intros r Hr. unfold zero_prior_rows in Hr.
    apply elem_of_cons in Hr as [->|Hr]; [reflexivity|].
    apply list_elem_of_singleton in Hr as ->. reflexivity. }
  split; [apply store_of_lookup|]. split; [reflexivity|]. split; [exact Hnone|].
  destruct (missing_liquidity_rows_give_NA (store_of zero_prior_rows) 1
              zero_prior_rows tong_row) as ((d & Hd & _) & _);
    [apply store_of_lookup | reflexivity | by left |].
  rewrite Hd. reflexivity.
Defined.

Lemma derive_is_pure_witness :
  store_of example_rows !! 1%positive = Some (frame_of example_rows) ∧
  (derive 1 (store_of example_rows)).2 !! 1%positive = Some (frame_of example_rows) ∧
  observe (derive 1 (derive 1 (store_of example_rows)).2)
    = observe (derive 1 (store_of example_rows)).
Proof.
  split; [apply store_of_lookup|].
  destruct (derive_is_pure (store_of example_rows) 1 example_rows
              (store_of_lookup _)) as (_ & Hraw & _ & Htwice).
  split; [exact Hraw|exact Htwice].
Defined.

(** The worked example under the labels of the script. *)
Lemma worked_example_witness :
  store_of example_rows !! 1%positive = Some (frame_of example_rows) ∧
  cell_contains TONG_CONG_TAI_SAN (Str TONG_CONG_TAI_SAN) = true ∧
  cell_contains TAI_SAN_NGAN_HAN (Str TONG_CONG_TAI_SAN) = false ∧
  cell_contains TAI_SAN_NGAN_HAN (Str TAI_SAN_NGAN_HAN) = true ∧
  cell_contains NO_NGAN_HAN (Str TONG_CONG_TAI_SAN) = false ∧
  cell_contains NO_NGAN_HAN (Str TAI_SAN_NGAN_HAN) = false ∧
  cell_contains NO_NGAN_HAN (Str NO_NGAN_HAN) = true ∧
  ∃ d : DataFrame,
    upload_metrics 1 (store_of example_rows)
      = (Ok (fresh (dom (store_of example_rows)), (Num 2, Num 2)),
         <[fresh (dom (store_of example_rows)) := d]> (store_of example_rows)) ∧
    column Toc_do_tang_truong d !! 0 = Some (Num 20) ∧
    column Ty_trong_Nam_sau d !! 1 = Some (Num 50).
Proof.
  split; [apply store_of_lookup|]. do 6 (split; [reflexivity|]).
  apply (worked_example (store_of example_rows) 1
           (Str TONG_CONG_TAI_SAN) (Str TAI_SAN_NGAN_HAN) (Str NO_NGAN_HAN)
           example_rows);
    [reflexivity | apply store_of_lookup | reflexivity..].
Defined.

Lemma rows_kept_in_order_witness :
  store_of text_rows !! 1%positive = Some (frame_of text_rows) ∧
  process_financial_data 1 (store_of text_rows)
    = (Ok 1%positive, (process_financial_data 1 (store_of text_rows)).2) ∧
  ∃ g wp wc : Series,
    (process_financial_data 1 (store_of text_rows)).2 !! 1%positive
      = Some [ (Chi_tieu, label <$> text_rows);
               (Nam_truoc, [Num 0; Num 400]);
               (Nam_sau, [Num 0; Num 600]);
               (Toc_do_tang_truong, g);
               (Ty_trong_Nam_truoc, wp);
               (Ty_trong_Nam_sau, wc) ] ∧
    length g = 2 ∧ length wp = 2 ∧ length wc = 2.
Proof.
  assert (process_financial_data 1 (store_of text_rows)
          = (Ok 1%positive, (process_financial_data 1 (store_of text_rows)).2))
    as Hrun.
  { rewrite (process_financial_data_run _ _ text_rows (store_of_lookup _)).
    reflexivity. }
  split; [apply store_of_lookup|]. split; [exact Hrun|].
  exact (proj1 (proj2 (rows_kept_in_order (store_of text_rows) _ 1 1 text_rows
                         (store_of_lookup _) Hrun))).
Defined.

(** Liabilities given as text: the ratio of the current period is infinity
    with assets 600 and NaN with assets 0. *)
Lemma current_ratio_has_no_zero_guard_witness :
  (store_of zero_liabilities_rows !! 1%positive
     = Some (frame_of zero_liabilities_rows) ∧
   first_row TONG_CONG_TAI_SAN zero_liabilities_rows = Some tong_row ∧
   first_row TAI_SAN_NGAN_HAN zero_liabilities_rows = Some tsnh_row ∧
   first_row NO_NGAN_HAN zero_liabilities_rows = Some no_text_row ∧
   current no_text_row = 0%float ∧ current tsnh_row = 600%float ∧
   (upload_metrics 1 (store_of zero_liabilities_rows)).1
     = Ok (2%positive, (Num infinity, Num 2))) ∧
  (first_row TAI_SAN_NGAN_HAN zero_assets_and_liabilities_rows = Some tsnh_zero_row ∧
   current tsnh_zero_row = 0%float ∧
   (upload_metrics 1 (store_of zero_assets_and_liabilities_rows)).1
     = Ok (2%positive, (Num nan, Num 2))).
Proof.
  split.
  - split; [apply store_of_lookup|]. do 5 (split; [reflexivity|]).
    destruct (current_ratio_has_no_zero_guard (store_of zero_liabilities_rows) 1
                zero_liabilities_rows tong_row tsnh_row no_text_row)
      as ((h' & Hrun) & Hinf & _);
      [apply store_of_lookup | reflexivity..|].
    rewrite Hrun. cbn [fst]. rewrite (Hinf eq_refl eq_refl). reflexivity.
  - do 2 (split; [reflexivity|]).
    destruct (current_ratio_has_no_zero_guard
                (store_of zero_assets_and_liabilities_rows) 1
                zero_assets_and_liabilities_rows tong_row tsnh_zero_row no_text_row)
      as ((h' & Hrun) & _ & _);
      [apply store_of_lookup | reflexivity..|].
    rewrite Hrun. reflexivity.
Defined.

(** C7 as stated, under the labels "TOTAL ASSETS", "SHORT-TERM ASSETS" and
    "SHORT-TERM LIABILITIES": no label contains the total-assets text of
    line 32, so the derivation raises the [ValueError] of line 35 and there
    is no growth, weight or ratio. *)
Lemma worked_example_english_labels :
  (∀ r, r ∈ english_rows → matches TONG_CONG_TAI_SAN r = false) ∧
  (∃ d : DataFrame,
     process_financial_data 1 (store_of english_rows)
       = (Raise (ValueError missing_anchor_msg),
          <[1%positive := d]> (store_of english_rows))) ∧
  (upload_metrics 1 (store_of english_rows)).1
    = Raise (ValueError missing_anchor_msg).
Proof.
  split; [|split].
  - intros r Hr. unfold english_rows in Hr.
    apply elem_of_cons in Hr as [->|Hr]; [reflexivity|].
    apply elem_of_cons in Hr as [->|Hr]; [reflexivity|].
    apply list_elem_of_singleton in Hr as ->. reflexivity.
  - rewrite (process_financial_data_run _ _ english_rows (store_of_lookup _)).
    eexists. reflexivity.
  - rewrite (upload_metrics_run _ _ english_rows (store_of_lookup _)).
    reflexivity.
Qed.

(** C8. The guard of line 235 compares whole labels, upper-cased and
    stripped, with the short-term-assets text. For the label
    "A. TÀI SẢN NGẮN HẠN" the substring search of the same line finds the row
    and its growth of 50, and the current ratio is computed from it, yet the
    entry of the key-metrics table is N/A. With the label equal to the text
    the entry is the growth. *)
Theorem tsnh_growth_entry_compares_whole_labels :
  (matches TAI_SAN_NGAN_HAN numbered_label_row = true ∧
   ∃ (rep : report) (h' : heap),
     on_upload 1 (store_of numbered_label_rows) = (Ok rep, h') ∧
     first_match (df_processed rep) TAI_SAN_NGAN_HAN Toc_do_tang_truong h'
       = (Ok (Num 50), h') ∧
     thanh_toan_hien_hanh_N rep = Num 2 ∧
     data_for_ai rep !! 1
       = Some (py "Tăng trưởng Tài sản ngắn hạn (%)", lit NA)) ∧
  (∃ (rep : report) (h' : heap),
     on_upload 1 (store_of example_rows) = (Ok rep, h') ∧
     data_for_ai rep !! 1
       = Some (py "Tăng trưởng Tài sản ngắn hạn (%)", fmt_2f_pct 50)).
Proof.
  split.
  - split; [reflexivity|].
    eexists _, _. split; [vm_compute; reflexivity|].
    split; [vm_compute; reflexivity|]. split; reflexivity.
  - eexists _, _. split; [vm_compute; reflexivity|]. reflexivity.
Qed.

End Examples.


(* ===================================================================== *)
(** ** More on the derivation and the upload branch *)
(* ===================================================================== *)

Section More.
Context `{Runtime}.

Lemma normalized_not_nan (c : cell) : is_nan (normalized c) = false.
Proof.
  unfold normalized. destruct c as [x|t].
  - destruct (is_nan x) eqn:E; done.
  - destruct (parse_number t) as [x|]; [|done].
    destruct (is_nan x) eqn:E; done.
Qed.

Lemma normalized_again (c : cell) : normalized (Num (normalized c)) = normalized c.
Proof.
  unfold normalized at 1. by rewrite normalized_not_nan.
Qed.

Lemma fillna_to_numeric_coerced (f : line_item → cell) (rows : list line_item) :
  fillna 0 (to_numeric ((λ r, Num (normalized (f r))) <$> rows))
  = (λ r, Num (normalized (f r))) <$> rows.
Proof.
  rewrite (fillna_to_numeric (λ r, Num (normalized (f r)))).
  apply list_fmap_ext. intros _ r _. by rewrite normalized_again.
Qed.

Lemma process_enriched_run (h : heap) (l : loc) (rows : list line_item) (a : line_item) :
  h !! l = Some (enriched rows a) →
  first_row TONG_CONG_TAI_SAN rows = Some a →
  process_financial_data l h = (Ok l, h).
Proof.
  intros E Ea. unfold process_financial_data.
  assert (coerce_columns l numeric_cols h = (Ok (), h)) as Hc.
  { unfold numeric_cols. cbn [coerce_columns].
    run_getitem. run_setitem. run_getitem. run_setitem.
    unfold prior, current. rewrite !fillna_to_numeric_coerced.
    cbn. by rewrite insert_id. }
  erewrite bind_run by exact Hc.
  run_getitem. run_getitem.
  rewrite series_op_rows. run_lift. run_getitem.
  rewrite replace_rows, series_op_rows. run_lift.
  rewrite series_scalar_op_rows. run_lift.
  run_setitem. run_getitem.
  change (df_set Toc_do_tang_truong _ _) with (enriched rows a).
  rewrite str_contains_rows, (first_row_has_text _ _ _ Ea).
  run_lift. run_load.
  rewrite insert_id by done.
  unfold first_row in Ea. rewrite find_head in Ea.
  unfold df_mask, enriched, with_growth, coerced.
  cbn [app fmap list_fmap fst snd]. rewrite !mask_select_rows.
  destruct (List.filter (matches TONG_CONG_TAI_SAN) rows) as [|a' rest];
    [discriminate|]. injection Ea as ->.
  cbn [df_empty fmap list_fmap].
  run_lift. run_lift. run_lift. run_lift.
  run_getitem.
  rewrite series_scalar_op_rows. cbn [mbind outcome_bind].
  rewrite series_scalar_op_rows. run_lift. run_setitem.
  run_getitem.
  rewrite series_scalar_op_rows. cbn [mbind outcome_bind].
  rewrite series_scalar_op_rows. run_lift. run_setitem.
  change (df_set Ty_trong_Nam_sau _ _) with (enriched rows a).
  by rewrite insert_id.
Qed.


(** *** Computations that do not write *)

Lemma read_only_ret {A} (a : A) : read_only (mret a).
Proof. by intros h. Qed.

Lemma read_only_raise {A} (e : exn) : read_only (raise (A:=A) e).
Proof. by intros h. Qed.

Lemma read_only_lift {A} (o : outcome A) : read_only (lift o).
Proof. by intros h. Qed.

Lemma read_only_load (l : loc) : read_only (load l).
Proof. intros h. unfold load. by destruct (h !! l). Qed.

Lemma read_only_bind {A B} (m : M A) (f : A → M B) :
  read_only m → (∀ a, read_only (f a)) → read_only (m ≫= f).
Proof.
  intros Hm Hf h. rewrite bind_unfold. specialize (Hm h).
  destruct (m h) as [[a|e] h']; simpl in Hm; subst h'; [apply Hf|done].
Qed.

Lemma read_only_try {A} (body handler : M A) :
  read_only body → read_only handler →
  read_only (try_except_IndexError body handler).
Proof.
  intros Hb Hh h. unfold try_except_IndexError. specialize (Hb h).
  destruct (body h) as [[a|e] h']; simpl in Hb; subst h'; [done|].
  destruct e; first [done | apply Hh].
Qed.

Lemma read_only_getitem (l : loc) col : read_only (getitem l col).
Proof.
  apply read_only_bind; [apply read_only_load|]. intros d. apply read_only_lift.
Qed.

Lemma read_only_first_match (l : loc) pat col : read_only (first_match l pat col).
Proof.
  unfold first_match.
  repeat (apply read_only_bind; [first [apply read_only_getitem | apply read_only_lift | apply read_only_load]|]; intros ?).
  apply read_only_lift.
Qed.

Lemma read_only_thanh_toan_hien_hanh (l : loc) : read_only (thanh_toan_hien_hanh l).
Proof.
  unfold thanh_toan_hien_hanh. apply read_only_try; [|apply read_only_ret].
  repeat (apply read_only_bind; [first [apply read_only_first_match | apply read_only_lift]|]; intros ?).
  apply read_only_ret.
Qed.

Lemma read_only_tsnh_growth_entry (l : loc) : read_only (tsnh_growth_entry l).
Proof.
  unfold tsnh_growth_entry.
  apply read_only_bind; [apply read_only_getitem|]. intros labels.
  apply read_only_bind; [apply read_only_lift|]. intros keys.
  destruct (str_in TAI_SAN_NGAN_HAN keys); [|apply read_only_ret].
  apply read_only_bind; [apply read_only_first_match|]. intros g.
  apply read_only_lift.
Qed.

Lemma read_only_build_data_for_ai (l : loc) (n n1 : cell) :
  read_only (build_data_for_ai l n n1).
Proof.
  unfold build_data_for_ai.
  apply read_only_bind; [apply read_only_load|]. intros d.
  apply read_only_bind; [apply read_only_tsnh_growth_entry|]. intros g.
  apply read_only_ret.
Qed.



Lemma df_get_missing col (d : DataFrame) :
  col ∉ (d.*1) → df_get col d = Raise (KeyError col).
Proof.
  induction d as [|[name s] d IH]; [done|]. csimpl. intros Hn.
  apply not_elem_of_cons in Hn as [Hne Hn].
  destruct (String.eqb_spec name col) as [->|_]; [done|]. by apply IH.
Qed.

Lemma df_get_set_ne col col' s (d : DataFrame) :
  col ≠ col' → df_get col' (df_set col s d) = df_get col' d.
Proof.
  intros Hne. induction d as [|[name s0] d IH]; simpl.
  - by destruct (String.eqb_spec col col').
  - destruct (String.eqb_spec name col) as [->|Hn]; simpl.
    + by destruct (String.eqb_spec col col').
    + destruct (String.eqb_spec name col'); [done|]. apply IH.
Qed.

(** X1. Running the derivation again on the frame it returned changes
    nothing: it returns the same reference and leaves the store as it is. *)
Theorem derivation_is_idempotent
    (h h' : heap) (l l' : loc) (rows : list line_item) :
  h !! l = Some (frame_of rows) →
  process_financial_data l h = (Ok l', h') →
  process_financial_data l' h' = (Ok l', h').
Proof.
  intros E. rewrite (process_financial_data_run _ _ rows E).
  destruct (first_row TONG_CONG_TAI_SAN rows) as [a|] eqn:Ea; [|discriminate].
  intros [= <- <-].
  apply (process_enriched_run _ _ rows a); [apply lookup_insert_eq|done].
Qed.

(** X2. After lines 21-22, whether the derivation then succeeds or not, both
    value columns have one cell per row and every cell is a number that is
    not NaN: texts and empty cells are gone. *)
Theorem coerced_values_are_numbers
    (h : heap) (l : loc) (rows : list line_item) :
  h !! l = Some (frame_of rows) →
  ∃ d : DataFrame,
    (process_financial_data l h).2 !! l = Some d ∧
    length (column Nam_truoc d) = length rows ∧
    length (column Nam_sau d) = length rows ∧
    ∀ i c, column Nam_truoc d !! i = Some c ∨ column Nam_sau d !! i = Some c →
      ∃ x : float, c = Num x ∧ is_nan x = false.
Proof.
  intros E. rewrite (process_financial_data_run _ _ rows E).
  assert (∀ d : DataFrame,
    column Nam_truoc d = (λ r, Num (prior r)) <$> rows →
    column Nam_sau d = (λ r, Num (current r)) <$> rows →
    length (column Nam_truoc d) = length rows ∧
    length (column Nam_sau d) = length rows ∧
    ∀ i c, column Nam_truoc d !! i = Some c ∨ column Nam_sau d !! i = Some c →
      ∃ x : float, c = Num x ∧ is_nan x = false) as Hcols.
  { intros d -> ->. rewrite !length_fmap. do 2 (split; [done|]).
    intros i c [Hc|Hc]; rewrite list_lookup_fmap in Hc;
      destruct (rows !! i) as [r|]; simplify_eq/=;
      eexists; (split; [done|]); apply normalized_not_nan. }
  destruct (first_row TONG_CONG_TAI_SAN rows) as [a|]; eexists;
    (split; [apply lookup_insert_eq | by apply Hcols]).
Qed.

(** X3. On a frame without the column 'Năm trước' the derivation raises
    [KeyError] for it and leaves the store as it is; on a frame with that column
    and without 'Năm sau' it raises [KeyError] for 'Năm sau' after it has
    coerced 'Năm trước' in the frame it was given. *)
Theorem missing_value_column_raises_KeyError
    (h : heap) (l : loc) (d : DataFrame) :
  h !! l = Some d →
  (Nam_truoc ∉ (d.*1) →
   process_financial_data l h = (Raise (KeyError Nam_truoc), h)) ∧
  (∀ s, df_get Nam_truoc d = Ok s → Nam_sau ∉ (d.*1) →
   process_financial_data l h
   = (Raise (KeyError Nam_sau),
      <[l := df_set Nam_truoc (fillna 0 (to_numeric s)) d]> h)).
Proof.
  intros E. split.
  - intros Hn. unfold process_financial_data.
    erewrite bind_raise; [done|]. unfold numeric_cols. cbn [coerce_columns].
    erewrite bind_raise; [done|]. unfold getitem.
    erewrite bind_run by (by apply load_run).
    unfold lift. by rewrite df_get_missing.
  - intros s Hs Hn. unfold process_financial_data.
    erewrite bind_raise; [done|]. unfold numeric_cols. cbn [coerce_columns].
    erewrite bind_run by (by eapply getitem_run).
    erewrite bind_run by (by eapply setitem_run).
    erewrite bind_raise; [done|]. unfold getitem.
    erewrite bind_run by (apply load_run, lookup_insert_eq).
    unfold lift. rewrite df_get_set_ne by done. by rewrite df_get_missing.
Qed.

Lemma cell_op_Num op (a b c : cell) :
  cell_op op a b = Ok c → ∃ x, c = Num x.
Proof. destruct a, b; simpl; intros [= <-]; by eexists. Qed.

(** X4. The current-ratio block of lines 189-220, on any store and any
    reference: it writes nothing, it never lets an [IndexError] out, and
    when it returns, the two ratios are both the text N/A or both numbers. *)
Theorem current_ratio_block_is_contained (h : heap) (l : loc) :
  (thanh_toan_hien_hanh l h).2 = h ∧
  (thanh_toan_hien_hanh l h).1 ≠ Raise IndexError ∧
  ∀ n n1 : cell, (thanh_toan_hien_hanh l h).1 = Ok (n, n1) →
    (n = Str NA ∧ n1 = Str NA) ∨ (∃ x y : float, n = Num x ∧ n1 = Num y).
Proof.
  split; [apply read_only_thanh_toan_hien_hanh|].
  unfold thanh_toan_hien_hanh, try_except_IndexError.
  match goal with |- context [match ?b h with _ => _ end] => set (body := b) end.
  assert (∀ n n1 h', body h = (Ok (n, n1), h') →
            ∃ x y : float, n = Num x ∧ n1 = Num y) as Hbody.
  { intros n n1 h'. unfold body.
    repeat (rewrite bind_unfold;
            match goal with
            | |- context [match ?m ?h0 with _ => _ end] =>
                destruct (m h0) as [[?|?] ?] eqn:?; [|discriminate]
            end).
    unfold lift in *. intros [= <- <- <-].
    repeat match goal with
           | Hc : (cell_op _ _ _, _) = (Ok _, _) |- _ =>
               injection Hc as Hc _; apply cell_op_Num in Hc as [? ->]
           end.
    eauto. }
  destruct (body h) as [[[n n1]|e] h'] eqn:Eb.
  - split; [done|]. intros ? ? [= <- <-]. right. by eapply Hbody.
  - destruct e; (split; [done|]); try done.
    intros ? ? [= <- <-]. by left.
Qed.

(** X5. In the upload branch only the derivation writes: the store after
    lines 169-239 is the store after line 169, whatever the store and the
    reference, and whether the branch ends with a report or an exception. *)
Theorem upload_writes_only_the_copy (h : heap) (l : loc) :
  (on_upload l h).2 = (derive l h).2.
Proof.
  unfold on_upload, upload_metrics. rewrite !bind_unfold.
  destruct (derive l h) as [[df|e] h1]; [|done].
  rewrite bind_unfold.
  pose proof (read_only_thanh_toan_hien_hanh df h1) as Ht.
  destruct (thanh_toan_hien_hanh df h1) as [[ratios|e] h2];
    simpl in Ht; subst h2; [|done].
  cbn [mret M_ret fst snd]. rewrite ?bind_unfold.
  pose proof (read_only_build_data_for_ai df ratios.1 ratios.2 h1) as Hb.
  destruct (build_data_for_ai df ratios.1 ratios.2 h1) as [[t|e] h3];
    simpl in Hb; by subst h3.
Qed.









End More.

(* ===================================================================== *)
(** ** The chat *)
(* ===================================================================== *)

Lemma alternating_app (a b : list message) :
  alternating a → alternating b → alternating (a ++ b).
Proof.
  revert a. fix IH 1. intros [|u [|v rest]]; simpl; [done|done|].
  intros (Hu & Hv & Hrest) Hb. split; [done|]. split; [done|].
  by apply IH.
Qed.

Lemma alternating_head (msgs : list message) (m : message) :
  alternating msgs → role m = user →
  ∃ u rest, msgs ++ [m] = u :: rest ∧ role u = user.
Proof.
  destruct msgs as [|u [|v rest]]; simpl; [by eauto|done|].
  intros (Hu & _) _. by eauto.
Qed.

Section Chat.
Context `{Services}.

Lemma on_chat_input_alternating prompt api_key d (msgs msgs' : list message) :
  alternating msgs → on_chat_input prompt api_key d msgs = Some msgs' →
  alternating msgs'.
Proof.
  intros Ha. unfold on_chat_input.
  destruct prompt as [[|c p]|]; [by intros [= <-]| |by intros [= <-]].
  destruct (negb (truthy api_key)); [done|]. intros [= <-].
  rewrite <- app_assoc. by apply alternating_app.
Qed.

Lemma chat_session_alternating d inputs (messages : list message) :
  chat_session d inputs = Some messages → alternating messages.
Proof.
  unfold chat_session.
  assert (∀ session : option (list message),
            (∀ msgs, session = Some msgs → alternating msgs) →
            foldl (λ session input, session ≫= on_chat_input input.1 input.2 d)
                  session inputs = Some messages →
            alternating messages) as Hgen.
  { induction inputs as [|inp inputs IH]; intros session Hs; [by apply Hs|].
    simpl. apply IH. intros msgs' Hrun.
    destruct session as [msgs|]; [|done]. simpl in Hrun.
    eapply on_chat_input_alternating; [by apply Hs | exact Hrun]. }
  apply Hgen. by intros msgs [= <-].
Qed.

(** X7. The contents built for the model keep the session's order: entry [i]
    is message [i], as "user" when its role is "user" and as "model" for any
    other role, with its own content, except that a user message at index 0
    carries the full prompt built from the current question; one more entry
    follows the session, a user entry with the question. *)
Theorem history_follows_the_session
    (fp prompt : py_str) (messages : list message) (i : nat) (m : message) :
  messages !! i = Some m →
  messages_history fp prompt messages !! i
    = Some {| turn_role := if bool_decide (role m = user) then user else model;
              turn_text := if bool_decide (role m = user) && bool_decide (i = 0)
                           then fp else content m |} ∧
  length (messages_history fp prompt messages) = S (length messages) ∧
  last (messages_history fp prompt messages)
    = Some {| turn_role := user; turn_text := prompt |}.
Proof.
  intros Hm. unfold messages_history.
  destruct messages as [|m0 rest] eqn:E; [done|]. rewrite <- E in *.
  split; [|split].
  - rewrite lookup_app_l by (rewrite length_imap; by eapply lookup_lt_Some).
    rewrite list_lookup_imap, Hm. simpl. unfold history_turn.
    by destruct (bool_decide (role m = user)), (bool_decide (i = 0)).
  - rewrite length_app, length_imap. simpl. lia.
  - by rewrite last_snoc.
Qed.

Lemma history_after_append (fp prompt : py_str) (messages : list message) :
  messages_history fp prompt (messages ++ [ {| role := user; content := prompt |} ])
  = imap (history_turn fp) messages
    ++ [ {| turn_role := user;
            turn_text := match messages with
                         | [] => fp
                         | _ :: _ => prompt
                         end |};
         {| turn_role := user; turn_text := prompt |} ].
Proof.
  unfold messages_history.
  destruct (messages ++ [_]) as [|m0 rest] eqn:E.
  { by destruct messages. }
  rewrite <- E. rewrite imap_app. rewrite <- app_assoc. f_equal.
  cbn [imap app]. f_equal. unfold history_turn, compose. cbn [role content].
  rewrite bool_decide_eq_true_2 by done.
  destruct messages; [done|].
  rewrite (bool_decide_eq_false_2 (_ = 0)) by (simpl; lia). done.
Qed.

Lemma on_chat_input_with_key
    (c kc : N) (p k : py_str) (d : DataFrame) (messages : list message) :
  on_chat_input (Some (c :: p)) (Some (kc :: k)) d messages
  = Some (messages
    ++ [ {| role := user; content := c :: p |};
         {| role := assistant;
            content :=
              reply_of
                (generate_content (kc :: k) model_name
                   (messages_history (full_prompt (render_markdown d) (c :: p))
                      (c :: p)
                      (messages ++ [ {| role := user; content := c :: p |} ]))) |} ]).
Proof.
  unfold on_chat_input. cbn [truthy negb default].
  by rewrite <- app_assoc.
Qed.

(** X8. A chat input with a prompt and a key appends the question to the
    session before it asks the model (line 282, then line 290), so the
    contents sent end with two user entries for the same question: the full
    prompt and the question on the first turn, the question twice later. *)
Theorem question_is_sent_twice
    (c kc : N) (p k : py_str) (d : DataFrame) (messages : list message) :
  let prompt := c :: p in
  let fp := full_prompt (render_markdown d) prompt in
  on_chat_input (Some prompt) (Some (kc :: k)) d messages
  = Some (messages
    ++ [ {| role := user; content := prompt |};
         {| role := assistant;
            content :=
              reply_of
                (generate_content (kc :: k) model_name
                   (imap (history_turn fp) messages
                    ++ [ {| turn_role := user;
                            turn_text := match messages with
                                         | [] => fp
                                         | _ :: _ => prompt
                                         end |};
                         {| turn_role := user; turn_text := prompt |} ])) |} ]).
Proof.
  cbv zeta. rewrite on_chat_input_with_key.
  by rewrite history_after_append.
Qed.

(** X9. After a sequence of chat inputs of which every run has a result
    (each has a key, or no prompt), the session is user and assistant
    messages in turn, and the contents of the next request with a key start
    with a user entry carrying the full prompt (instructions, rendered frame,
    current question) and end with the question. *)
Theorem context_is_sent_on_every_turn
    (d : DataFrame) (inputs : list (option py_str * option py_str))
    (messages : list message) (c kc : N) (p k : py_str) :
  chat_session d inputs = Some messages →
  let prompt := c :: p in
  alternating messages ∧
  ∃ rest : list turn,
    on_chat_input (Some prompt) (Some (kc :: k)) d messages
    = Some (messages
      ++ [ {| role := user; content := prompt |};
           {| role := assistant;
              content :=
                reply_of
                  (generate_content (kc :: k) model_name
                     ({| turn_role := user;
                         turn_text := full_prompt (render_markdown d) prompt |}
                      :: rest)) |} ]) ∧
    last rest = Some {| turn_role := user; turn_text := prompt |}.
Proof.
  intros Hs. cbv zeta.
  pose proof (chat_session_alternating d inputs messages Hs) as Ha.
  split; [done|].
  rewrite on_chat_input_with_key, history_after_append.
  destruct messages as [|u [|v rest]]; simpl in Ha; [|done|].
  - eexists. split; [reflexivity|]. done.
  - destruct Ha as (Hu & _). rewrite imap_cons. unfold history_turn at 1.
    rewrite !bool_decide_eq_true_2 by done. cbn [andb app].
    eexists. split; [reflexivity|]. by rewrite last_app_cons.
Qed.

End Chat.

(* ===================================================================== *)
(** ** These properties at concrete inputs *)
(* ===================================================================== *)

Section More_examples.
#[local] Existing Instance viet_runtime.
#[local] Existing Instance echo_services.

Lemma derivation_is_idempotent_witness :
  store_of example_rows !! 1%positive = Some (frame_of example_rows) ∧
  process_financial_data 1 (store_of example_rows)
    = (Ok 1%positive, (process_financial_data 1 (store_of example_rows)).2) ∧
  process_financial_data 1 (process_financial_data 1 (store_of example_rows)).2
    = (Ok 1%positive, (process_financial_data 1 (store_of example_rows)).2).
Proof.
  assert (process_financial_data 1 (store_of example_rows)
          = (Ok 1%positive, (process_financial_data 1 (store_of example_rows)).2))
    as Hrun.
  { rewrite (process_financial_data_run _ _ example_rows (store_of_lookup _)).
    reflexivity. }
  split; [apply store_of_lookup|]. split; [exact Hrun|].
  exact (derivation_is_idempotent (store_of example_rows) _ 1 1 example_rows
           (store_of_lookup _) Hrun).
Defined.

Lemma coerced_values_are_numbers_witness :
  store_of text_rows !! 1%positive = Some (frame_of text_rows) ∧
  ∃ d : DataFrame,
    (process_financial_data 1 (store_of text_rows)).2 !! 1%positive = Some d ∧
    length (column Nam_truoc d) = 2 ∧
    ∀ i c, column Nam_truoc d !! i = Some c ∨ column Nam_sau d !! i = Some c →
      ∃ x : float, c = Num x ∧ is_nan x = false.
Proof.
  split; [apply store_of_lookup|].
  destruct (coerced_values_are_numbers (store_of text_rows) 1 text_rows
              (store_of_lookup _)) as (d & Hd & Hlen & _ & Hnum).
  exists d. split; [exact Hd|]. split; [exact Hlen|exact Hnum].
Defined.

Lemma missing_value_column_raises_KeyError_witness :
  (({[ 1%positive := frame_without_values ]} : heap) !! 1%positive
     = Some frame_without_values ∧
   (Nam_truoc ∉ frame_without_values.*1) ∧
   process_financial_data 1 {[ 1%positive := frame_without_values ]}
     = (Raise (KeyError Nam_truoc), {[ 1%positive := frame_without_values ]})) ∧
  (df_get Nam_truoc frame_without_Nam_sau = Ok [Str (py "abc")] ∧
   (Nam_sau ∉ frame_without_Nam_sau.*1) ∧
   (process_financial_data 1 {[ 1%positive := frame_without_Nam_sau ]}).1
     = Raise (KeyError Nam_sau) ∧
   (process_financial_data 1 {[ 1%positive := frame_without_Nam_sau ]}).2
     !! 1%positive
     = Some [ (Chi_tieu, [Str TONG_CONG_TAI_SAN]); (Nam_truoc, [Num 0]) ]).
Proof.
  assert (Nam_truoc ∉ (frame_without_values.*1)) as H1.
  { intros Hin. apply list_elem_of_singleton in Hin. discriminate. }
  assert (Nam_sau ∉ (frame_without_Nam_sau.*1)) as H2.
  { intros Hin. apply elem_of_cons in Hin as [Hin|Hin]; [discriminate|].
    apply list_elem_of_singleton in Hin. discriminate. }
  split.
  - split; [apply lookup_singleton_eq|]. split; [exact H1|].
    exact (proj1 (missing_value_column_raises_KeyError
                    {[ 1%positive := frame_without_values ]} 1
                    frame_without_values (lookup_singleton_eq _ _)) H1).
  - split; [reflexivity|]. split; [exact H2|].
    rewrite (proj2 (missing_value_column_raises_KeyError
                      {[ 1%positive := frame_without_Nam_sau ]} 1
                      frame_without_Nam_sau (lookup_singleton_eq _ _))
               [Str (py "abc")] eq_refl H2).
    split; [reflexivity|]. cbn [snd]. by rewrite lookup_insert_eq.
Defined.


Lemma history_follows_the_session_witness :
  let messages := [ {| role := user; content := py "Tăng trưởng?" |};
                    {| role := assistant; content := py "20%" |} ] in
  messages !! 1 = Some {| role := assistant; content := py "20%" |} ∧
  messages_history (py "ngữ cảnh") (py "Tỷ trọng?") messages
  = [ {| turn_role := user; turn_text := py "ngữ cảnh" |};
      {| turn_role := model; turn_text := py "20%" |};
      {| turn_role := user; turn_text := py "Tỷ trọng?" |} ] ∧
  messages_history (py "ngữ cảnh") (py "Tỷ trọng?") messages !! 1
  = Some {| turn_role := model; turn_text := py "20%" |}.
Proof.
  cbv zeta. split; [reflexivity|]. split; [reflexivity|].
  exact (proj1 (history_follows_the_session (py "ngữ cảnh") (py "Tỷ trọng?")
                  [ {| role := user; content := py "Tăng trưởng?" |};
                    {| role := assistant; content := py "20%" |} ] 1
                  {| role := assistant; content := py "20%" |} eq_refl)).
Defined.

(** Two questions with a key, then a third: the session has four messages
    in turn, and the third request starts with the full prompt of the third
    question. *)
Lemma context_is_sent_on_every_turn_witness :
  ∃ messages : list message,
    chat_session (frame_of example_rows) two_inputs = Some messages ∧
    (content <$> messages
     = [py "Tăng trưởng?"; py "ok"; py "Tỷ trọng?"; py "ok"]) ∧
    alternating messages ∧
    ∃ rest : list turn,
      on_chat_input (Some [63%N]) (Some [107%N]) (frame_of example_rows) messages
      = Some (messages
        ++ [ {| role := user; content := [63%N] |};
             {| role := assistant;
                content :=
                  reply_of
                    (generate_content [107%N] model_name
                       ({| turn_role := user;
                           turn_text :=
                             full_prompt (render_markdown (frame_of example_rows))
                                         [63%N] |}
                        :: rest)) |} ]) ∧
      last rest = Some {| turn_role := user; turn_text := [63%N] |}.
Proof.
  eexists. split; [vm_compute; reflexivity|].
  split; [vm_compute; reflexivity|].
  apply (context_is_sent_on_every_turn (frame_of example_rows) two_inputs
           _ 63 107 [] []).
  vm_compute; reflexivity.
Defined.

End More_examples.
